(** * DVL Analytics: the ingestion and aggregation pipeline of [server.js]

    A shallow embedding of the HTTP handlers of [src/server.js] that read
    and write the SQLite event store: the API-key middleware, the tracking
    endpoint, the dashboard summary, the four listings and the health
    check; and of the two scripts the service hands to browsers, the
    tracking snippet and the script of the dashboard page.  The Express
    framework, the [sqlite3] driver and SQLite itself
    are not part of the repository; what the handlers rely on from them is
    kept in the interface [SqlDriver] (value conversion, [AVG]) and in the
    per-statement environment [env] (the engine's clock and whether the
    statement succeeds). *)

From stdpp Require Import base numbers list strings gmap sorting.
From stdpp Require Import pretty.

(** ** JavaScript values

    Request bodies are what [express.json()] delivers: JSON values, and
    [undefined] for a property that is not there.  JavaScript numbers are
    kept abstract (type parameter [number]). *)

#[local] Set Warnings "-register-all,-clear-no-such-hyp".

Inductive jsval {number : Type} : Type :=
  | JUndefined
  | JNull
  | JBool (b : bool)
  | JNum (n : number)
  | JStr (s : string)
  | JArr (items : list jsval)
  | JObj (props : gmap string jsval).
Arguments jsval : clear implicits.

(** Exceptions raised by the handlers' own code. *)
Inductive js_error : Type :=
  | TypeError.

(** A completion: a value, or a thrown exception. *)
Inductive completion (A : Type) : Type :=
  | Normal (a : A)
  | Throw (err : js_error).
Arguments Normal {A} a.
Arguments Throw {A} err.

Global Instance completion_ret : MRet completion := λ A a, Normal a.
Global Instance completion_bind : MBind completion := λ A B k c,
  match c with
  | Normal a => k a
  | Throw err => Throw err
  end.

(** [v.k] for the property names the handlers read ([type], [data] and the
    payload fields of [payload_fields] below).  Reading a property of
    [undefined] or [null] throws; an object parsed from JSON answers with
    its own property; numbers, booleans, strings and arrays have none of
    these names, neither own nor inherited. *)
Definition get_prop {number} (v : jsval number) (k : string) : completion (jsval number) :=
  match v with
  | JUndefined | JNull => Throw TypeError
  | JObj props => Normal (default JUndefined (props !! k))
  | JBool _ | JNum _ | JStr _ | JArr _ => Normal JUndefined
  end.

(** The array literal [[data.a, data.b, ...]], evaluated left to right. *)
Fixpoint read_fields {number} (data : jsval number) (ks : list string)
  : completion (list (jsval number)) :=
  match ks with
  | [] => Normal []
  | k :: ks' =>
      v ← get_prop data k;
      vs ← read_fields data ks';
      mret (v :: vs)
  end.

(** ** The event store: schema

    Four tables, created by the [CREATE TABLE IF NOT EXISTS] statements at
    start-up.  Each has [id INTEGER PRIMARY KEY AUTOINCREMENT], the data
    columns listed here, and [timestamp DATETIME DEFAULT CURRENT_TIMESTAMP]. *)

Inductive table_name : Type :=
  | performance_metrics
  | seo_metrics
  | form_submissions
  | user_analytics.

Global Instance table_name_eq_dec : EqDecision table_name.
Proof. solve_decision. Defined.

(** Declared column types. *)
Inductive affinity : Type :=
  | TEXT
  | REAL
  | INTEGER.

(** The data columns of each table, in declaration order. *)
Definition columns (t : table_name) : list (string * affinity) :=
  match t with
  | performance_metrics =>
      [("page_url", TEXT); ("load_time", REAL); ("fcp", REAL); ("lcp", REAL);
       ("cls", REAL); ("fid", REAL); ("ttfb", REAL); ("dom_ready", REAL);
       ("device_type", TEXT)]
  | seo_metrics =>
      [("page_url", TEXT); ("title", TEXT); ("meta_description", TEXT);
       ("h1_count", INTEGER); ("lighthouse_score", REAL);
       ("images_without_alt", INTEGER); ("internal_links", INTEGER);
       ("external_links", INTEGER)]
  | form_submissions =>
      [("form_type", TEXT); ("page_url", TEXT); ("referrer", TEXT);
       ("device_type", TEXT); ("conversion_source", TEXT)]
  | user_analytics =>
      [("session_id", TEXT); ("page_url", TEXT); ("referrer", TEXT);
       ("device_type", TEXT); ("screen_resolution", TEXT); ("user_agent", TEXT);
       ("time_on_page", INTEGER)]
  end.

(** The payload properties bound to the [?] placeholders of each [INSERT],
    in the order of the parameter array; the [INSERT] names the data
    columns in declaration order, so the i-th property goes to the i-th
    column. *)
Definition payload_fields (t : table_name) : list string :=
  match t with
  | performance_metrics =>
      ["pageUrl"; "loadTime"; "fcp"; "lcp"; "cls"; "fid"; "ttfb"; "domReady";
       "deviceType"]
  | seo_metrics =>
      ["pageUrl"; "title"; "metaDescription"; "h1Count"; "lighthouseScore";
       "imagesWithoutAlt"; "internalLinks"; "externalLinks"]
  | form_submissions =>
      ["formType"; "pageUrl"; "referrer"; "deviceType"; "conversionSource"]
  | user_analytics =>
      ["sessionId"; "pageUrl"; "referrer"; "deviceType"; "screenResolution";
       "userAgent"; "timeOnPage"]
  end.

(** ** The driver interface

    What [server.js] takes from the [sqlite3] package and from SQLite:
    the values a column can hold, with [NULL] among them and a decidable
    equality (the one [DISTINCT] uses); the conversion of a bound
    JavaScript parameter into the value stored in a column of a given
    declared type; and the [AVG] aggregate over a column's values. *)
Class SqlDriver : Type := {
  number : Type;
  sqlval : Type;
  sqlval_eq_dec :: EqDecision sqlval;
  sql_null : sqlval;
  bind_column : affinity → jsval number → sqlval;
  sql_avg : list sqlval → sqlval;
}.

(** Time, as the engine reports it: whole seconds since the epoch, UTC.
    [CURRENT_TIMESTAMP] is the text [YYYY-MM-DD HH:MM:SS], whose order as
    text is the order of the instants and whose [date(...)] is the day. *)
Definition seconds_per_day : N := 86400.
Definition date_of (t : N) : N := (t `div` seconds_per_day)%N.

(** The largest rowid an [AUTOINCREMENT] key can take. *)
Definition max_rowid : Z := 9223372036854775807.

(** What the engine decides when it runs one statement: its clock, and
    whether the statement goes through (disk full, locked or corrupt
    database file, I/O error: [io_ok = false]). *)
Record env : Type := Env {
  now : N;
  io_ok : bool;
}.

Inductive sql_error : Type :=
  | SQLITE_ERROR
  | SQLITE_FULL.

Section Pipeline.
Context `{SqlDriver}.

(** ** The event store: state *)

(** A stored row: the key, the data columns in declaration order, and the
    timestamp column. *)
Record row : Type := Row {
  id : Z;
  cells : list sqlval;
  timestamp : N;
}.

(** A table: its rows in rowid order, and its entry in [sqlite_sequence]
    (the largest rowid handed out so far; no row is ever deleted or
    inserted with an explicit key). *)
Record table : Type := Table {
  rows : list row;
  last_rowid : Z;
}.

Record db : Type := Db {
  db_performance : table;
  db_seo : table;
  db_forms : table;
  db_users : table;
}.

Definition tbl (t : table_name) (s : db) : table :=
  match t with
  | performance_metrics => db_performance s
  | seo_metrics => db_seo s
  | form_submissions => db_forms s
  | user_analytics => db_users s
  end.

Definition set_tbl (t : table_name) (x : table) (s : db) : db :=
  match t with
  | performance_metrics => Db x (db_seo s) (db_forms s) (db_users s)
  | seo_metrics => Db (db_performance s) x (db_forms s) (db_users s)
  | form_submissions => Db (db_performance s) (db_seo s) x (db_users s)
  | user_analytics => Db (db_performance s) (db_seo s) (db_forms s) x
  end.

Definition row_count (t : table_name) (s : db) : nat := length (rows (tbl t s)).

(** The value of a named data column in a row of table [t]. *)
Fixpoint column_index (name : string) (cols : list (string * affinity)) : option nat :=
  match cols with
  | [] => None
  | (c, _) :: cols' =>
      if decide (c = name) then Some 0 else S <$> column_index name cols'
  end.

Definition cell (t : table_name) (name : string) (r : row) : sqlval :=
  match column_index name (columns t) with
  | Some i => default sql_null (cells r !! i)
  | None => sql_null
  end.

(** ** Statements *)

(** [INSERT INTO t (data columns) VALUES (?, ..., ?)] with the parameter
    array [params]: the key comes from [AUTOINCREMENT], the timestamp from
    [DEFAULT CURRENT_TIMESTAMP].  The statement either appends one row or
    leaves the database as it was and reports an error. *)
Definition insert_row (e : env) (t : table_name) (params : list (jsval number))
    (s : db) : db * option sql_error :=
  let tb := tbl t s in
  if negb (io_ok e) then (s, Some SQLITE_ERROR)
  else if bool_decide (max_rowid ≤ last_rowid tb)%Z then (s, Some SQLITE_FULL)
  else
    let r := Row (last_rowid tb + 1) (zip_with bind_column (columns t).*2 params) (now e) in
    (set_tbl t (Table (rows tb ++ [r])%list (last_rowid tb + 1)) s, None).

(** [WHERE date(timestamp) = date("now")] *)
Definition today (clock : N) (rs : list row) : list row :=
  filter (λ r, date_of (timestamp r) = date_of clock) rs.

(** [COUNT(DISTINCT x)]: one pass over the values, keeping those seen so
    far; [NULL] is not counted. *)
Fixpoint distinct (vs seen : list sqlval) : list sqlval :=
  match vs with
  | [] => seen
  | v :: vs' =>
      if decide (v = sql_null) then distinct vs' seen
      else if decide (v ∈ seen) then distinct vs' seen
      else distinct vs' (v :: seen)
  end.

Definition count_distinct (vs : list sqlval) : N := N.of_nat (length (distinct vs [])).

(** [ORDER BY timestamp DESC]: SQLite scans the table in rowid order and
    files every row in a sorting index keyed by the timestamp, descending,
    then by the order of arrival; a row goes behind the rows already filed
    whose timestamp is not smaller. *)
Fixpoint index_insert (r : row) (idx : list row) : list row :=
  match idx with
  | [] => [r]
  | x :: idx' =>
      if decide (timestamp x < timestamp r)%N then r :: x :: idx'
      else x :: index_insert r idx'
  end.

Definition order_by_timestamp_desc (rs : list row) : list row :=
  foldl (λ idx r, index_insert r idx) [] rs.

Definition page_size : nat := 100.

(** [SELECT * FROM t ORDER BY timestamp DESC LIMIT 100] *)
Definition select_recent (t : table_name) (s : db) : list row :=
  take page_size (order_by_timestamp_desc (rows (tbl t s))).

(** [SELECT COUNT( * ) as total, AVG(load_time) as avg_load_time
     FROM performance_metrics WHERE date(timestamp) = date("now")] *)
Record perf_row : Type := PerfRow {
  total : N;
  avg_load_time : sqlval;
}.

Definition select_performance_stats (clock : N) (s : db) : perf_row :=
  let rs := today clock (rows (db_performance s)) in
  PerfRow (N.of_nat (length rs)) (sql_avg (cell performance_metrics "load_time" <$> rs)).

(** [SELECT COUNT( * ) as total FROM form_submissions
     WHERE date(timestamp) = date("now")] *)
Definition select_form_total (clock : N) (s : db) : N :=
  N.of_nat (length (today clock (rows (db_forms s)))).

(** [SELECT COUNT(DISTINCT session_id) as unique_sessions FROM user_analytics
     WHERE date(timestamp) = date("now")] *)
Definition select_unique_sessions (clock : N) (s : db) : N :=
  count_distinct (cell user_analytics "session_id" <$> today clock (rows (db_users s))).

(** [db.get] / [db.all] with a callback: the callback receives the error or
    the result. *)
Definition db_query {A : Type} (e : env) (q : N → db → A) (s : db) : sql_error + A :=
  if io_ok e then inr (q (now e) s) else inl SQLITE_ERROR.

(** ** HTTP replies *)

(** The [stats] object of the dashboard handler: it starts empty and gets
    one property per sub-query. *)
Record stats : Type := Stats {
  performance : option perf_row;
  forms : option N;       (* { total } *)
  users : option N;       (* { unique_sessions } *)
}.

Inductive json_body : Type :=
  | ErrorBody (error : string)
  | TrackedBody (success : bool) (message : string)
  | HealthBody (status service version : string) (time : N) (database : string)
  | DashboardBody (time : N) (st : stats)
  | RowsBody (rs : list row).

Record response : Type := Response {
  status : N;
  body : json_body;
}.

(** [res.json(b)] and [res.status(c).json(b)] *)
Definition json (b : json_body) : response := Response 200 b.
Definition status_json (c : N) (b : json_body) : response := Response c b.

(** What a handler does, in program order: statements it gives to the
    driver without a callback, the response it sends, and an exception it
    lets escape to the framework. *)
Inductive effect : Type :=
  | DbRun (t : table_name) (params : list (jsval number))
  | Send (r : response)
  | Escape (err : js_error).

(** A request, as far as the handlers look at it: the [x-api-key] header
    and the parsed body. *)
Record request : Type := Request {
  api_key : option string;
  req_body : jsval number;
}.

(** ** Handlers *)

Definition validKeys : list string := ["dvl-media-main"; "dvl-media-dev"].

(** [validateApiKey]: [Some r] when the middleware answers itself, [None]
    when it calls [next()]. *)
Definition validateApiKey (req : request) : option response :=
  match api_key req with
  | None => Some (status_json 401 (ErrorBody "Invalid or missing API key"))
  | Some apiKey =>
      if bool_decide (apiKey = "") || negb (bool_decide (apiKey ∈ validKeys))
      then Some (status_json 401 (ErrorBody "Invalid or missing API key"))
      else None
  end.

(** The [switch (type)] of the tracking handler: strict equality with the
    four string labels. *)
Definition table_of_type (type : jsval number) : option table_name :=
  match type with
  | JStr s =>
      if decide (s = "performance") then Some performance_metrics
      else if decide (s = "seo") then Some seo_metrics
      else if decide (s = "form") then Some form_submissions
      else if decide (s = "user") then Some user_analytics
      else None
  | _ => None
  end.

(** [app.post('/api/track', validateApiKey, handler)]: the handler. *)
Definition track (req : request) : list effect :=
  match get_prop (req_body req) "type", get_prop (req_body req) "data" with
  | Normal type, Normal data =>
      (* try *)
      match table_of_type type with
      | Some t =>
          match read_fields data (payload_fields t) with
          | Normal params =>
              [DbRun t params;
               Send (json (TrackedBody true "Data tracked successfully"))]
          | Throw _ =>
              (* catch *)
              [Send (status_json 500 (ErrorBody "Failed to track data"))]
          end
      | None => [Send (status_json 400 (ErrorBody "Invalid tracking type"))]
      end
  | Throw err, _ | _, Throw err => [Escape err]
  end.

Definition post_track (req : request) : list effect :=
  match validateApiKey req with
  | Some r => [Send r]
  | None => track req
  end.

(** The response among the effects of a handler. *)
Fixpoint reply (effs : list effect) : option response :=
  match effs with
  | [] => None
  | Send r :: _ => Some r
  | _ :: effs' => reply effs'
  end.

(** The driver runs the queued statements; an error of a statement that
    was given no callback is raised as an [error] event, which no part of
    [server.js] listens to. *)
Fixpoint run_effects (e : env) (effs : list effect) (s : db) : db * list sql_error :=
  match effs with
  | [] => (s, [])
  | DbRun t params :: effs' =>
      let '(s1, err) := insert_row e t params s in
      let '(s2, errs) := run_effects e effs' s1 in
      (s2, (option_list err ++ errs)%list)
  | _ :: effs' => run_effects e effs' s
  end.

(** [submit]: one [POST /api/track] request, with the store's state before
    and after; the reply ([None] if the handler sent none), the new state
    and the error events. *)
Definition submit (e : env) (req : request) (s : db)
  : option response * db * list sql_error :=
  let effs := post_track req in
  let '(s', errs) := run_effects e effs s in
  (reply effs, s', errs).

(** [app.get('/api/dashboard', ...)]: three nested [db.get] callbacks. *)
Definition get_dashboard (wall : N) (e1 e2 e3 : env) (s : db) : response :=
  let stats0 := Stats None None None in
  match db_query e1 select_performance_stats s with
  | inl _ => status_json 500 (ErrorBody "Database error")
  | inr perfRow =>
      let stats1 := Stats (Some perfRow) (forms stats0) (users stats0) in
      match db_query e2 select_form_total s with
      | inl _ => status_json 500 (ErrorBody "Database error")
      | inr formRow =>
          let stats2 := Stats (performance stats1) (Some formRow) (users stats1) in
          match db_query e3 select_unique_sessions s with
          | inl _ => status_json 500 (ErrorBody "Database error")
          | inr userRow =>
              let stats3 := Stats (performance stats2) (forms stats2) (Some userRow) in
              json (DashboardBody wall stats3)
          end
      end
  end.

(** [app.get('/api/performance' | '/api/seo' | '/api/forms' | '/api/users')] *)
Definition get_list (t : table_name) (e : env) (s : db) : response :=
  match db_query e (λ _, select_recent t) s with
  | inl _ => status_json 500 (ErrorBody "Database error")
  | inr rs => json (RowsBody rs)
  end.

(** [app.get('/api/health', ...)] *)
Definition get_health (wall : N) : response :=
  json (HealthBody "healthy" "DVL Analytics API" "1.0.0" wall "connected").

(** ** The routes of the API *)

Inductive endpoint : Type :=
  | Health
  | Track
  | Dashboard
  | Listing (t : table_name).

(** The world a request runs in: the wall clock of [new Date()], and what
    the engine decides for the statements the request issues, in order. *)
Record world : Type := World {
  wall_clock : N;
  stmt_env : nat → env;
}.

(** One request served by the route [ep]: the reply and the state of the
    store afterwards. *)
Definition serve (w : world) (ep : endpoint) (req : request) (s : db)
  : option response * db :=
  match ep with
  | Health => (Some (get_health (wall_clock w)), s)
  | Track => (submit (stmt_env w 0) req s).1
  | Dashboard =>
      (Some (get_dashboard (wall_clock w) (stmt_env w 0) (stmt_env w 1) (stmt_env w 2) s), s)
  | Listing t => (Some (get_list t (stmt_env w 0) s), s)
  end.

End Pipeline.

(** ** Vocabulary of the specification *)

Section Vocabulary.
Context `{SqlDriver}.

(** The event-type label of each table's events. *)
Definition type_label (t : table_name) : string :=
  match t with
  | performance_metrics => "performance"
  | seo_metrics => "seo"
  | form_submissions => "form"
  | user_analytics => "user"
  end.

(** The request carries a key that is on the allowlist. *)
Definition has_valid_key (req : request) : Prop :=
  ∃ k, api_key req = Some k ∧ k ∈ validKeys.

(** The body of the request reads as [{type: ty, data: data}]; a property
    that is not there reads as [undefined]. *)
Definition carries (req : request) (ty data : jsval number) : Prop :=
  get_prop (req_body req) "type" = Normal ty ∧
  get_prop (req_body req) "data" = Normal data.

(** The accepting reply of the tracking endpoint, [{success: true, ...}]. *)
Definition ack : response :=
  Response 200 (TrackedBody true "Data tracked successfully").

(** The session identifiers of the user rows of the day of [clock]. *)
Definition session_of_today (clock : N) (s : db) (v : sqlval) : Prop :=
  v ≠ sql_null ∧
  ∃ r, r ∈ rows (db_users s) ∧ date_of (timestamp r) = date_of clock ∧
       cell user_analytics "session_id" r = v.

(** [undefined] and [null], the two values without properties. *)
Definition nullish (v : jsval number) : bool :=
  match v with
  | JUndefined | JNull => true
  | _ => false
  end.

(** [x] may stand before [y] in a listing: it is at least as recent. *)
Definition newer_first (x y : row) : Prop := (timestamp y ≤ timestamp x)%N.

(** A sequence of tracking requests, each run by the store under its own
    environment. *)
Definition submit_all (jobs : list (env * request)) (s : db) : db :=
  foldl (λ s j, (submit j.1 j.2 s).1.2) s jobs.

End Vocabulary.

(** ** Runs of the service and the invariants of the store *)

Section Runs.
Context `{SqlDriver}.

(** A run: requests served one after the other, each in its own world. *)
Definition serve_all (jobs : list (world * endpoint * request)) (s : db) : db :=
  foldl (λ s j, (serve j.1.1 j.1.2 j.2 s).2) s jobs.

(** The tracking requests among the requests of a run. *)
Definition is_track (ep : endpoint) : bool :=
  match ep with
  | Track => true
  | _ => false
  end.

Definition track_count (jobs : list (world * endpoint * request)) : nat :=
  length (filter (λ j, is_track j.1.2 = true) jobs).

(** The keys of a table as [AUTOINCREMENT] hands them out: positive,
    growing with the rowid order, and never beyond the table's entry in
    [sqlite_sequence], which itself stays within the rowid range. *)
Definition keys_ok (tb : table) : Prop :=
  StronglySorted (λ x y, (id x < id y)%Z) (rows tb) ∧
  Forall (λ r, (0 < id r ≤ last_rowid tb)%Z) (rows tb) ∧
  (0 ≤ last_rowid tb ≤ max_rowid)%Z.

Definition db_keys_ok (s : db) : Prop := ∀ t, keys_ok (tbl t s).

(** The rows of a table were inserted at strictly growing seconds. *)
Definition chronological (rs : list row) : Prop :=
  StronglySorted (λ x y, (timestamp x < timestamp y)%N) rs.

(** The rows of all four tables together. *)
Definition total_rows (s : db) : nat :=
  row_count performance_metrics s + row_count seo_metrics s +
  row_count form_submissions s + row_count user_analytics s.

(** The three replies by which the tracking endpoint turns a request down. *)
Definition unauthorized : response :=
  Response 401 (ErrorBody "Invalid or missing API key").
Definition invalid_type : response :=
  Response 400 (ErrorBody "Invalid tracking type").
Definition track_failed : response :=
  Response 500 (ErrorBody "Failed to track data").

End Runs.

(** ** The scripts the service hands to browsers

    [GET /dvl-analytics.js] serves the tracking snippet and
    [GET /dashboard] a page whose script polls [/api/dashboard].  Both run
    in a browser; what they read from it is gathered in the records
    [browser] and [fetched], and two expressions whose value depends on
    JavaScript's number arithmetic are kept in the interface [JsRuntime]:
    the subtraction of two timings, and the text
    [avgLoad ? Math.round(avgLoad) + 'ms' : 'No data'] for the average as
    the dashboard's JSON carries it. *)

Class JsRuntime `{SqlDriver} : Type := {
  minus : number → number → number;
  render_avg : sqlval → string;
}.

Section Snippet.
Context `{SqlDriver} `{!JsRuntime}.

(** [DVL_CONFIG]: a property that is missing reads as [None] (strings) or
    [false] (flags: only their truthiness is looked at). *)
Record config : Type := Config {
  apiKey : option string;
  apiUrl : option string;
  trackPageViews : bool;
  trackPerformance : bool;
  trackForms : bool;
  trackUserBehavior : bool;
}.

Definition default_config : config :=
  Config (Some "dvl-media-main") (Some "https://analytics.dvlmedia.co.za/api/track")
         true true true true.

(** What the snippet reads from the browser. *)
Record browser : Type := Browser {
  window_config : option config;      (* window.DVL_CONFIG *)
  stored_session : option string;     (* sessionStorage 'dvl_session_id' *)
  stored_referrer : option string;    (* sessionStorage 'dvl_referrer' *)
  innerWidth : Z;                     (* window.innerWidth *)
  href : string;                      (* window.location.href *)
  referrer : string;                  (* document.referrer *)
  screen_width : Z;                   (* screen.width *)
  screen_height : Z;                  (* screen.height *)
  userAgent : string;                 (* navigator.userAgent *)
  date_now : Z;                       (* Date.now() *)
  random_tail : string;               (* Math.random().toString(36).substr(2, 9) *)
}.

(** The navigation timing entry [performance.getEntriesByType('navigation')[0]]. *)
Record nav_timing : Type := NavTiming {
  loadEventStart : number;
  loadEventEnd : number;
  domContentLoadedEventStart : number;
  domContentLoadedEventEnd : number;
  requestStart : number;
  responseStart : number;
}.

(** The target of a [submit] event. *)
Record element : Type := Element {
  tagName : string;
  form_name : string;
  form_id : string;
}.

(** [a || b] on strings: the empty string is falsy. *)
Definition str_or (a b : string) : string := if decide (a = "") then b else a.

(** [!x] for a string that may be missing. *)
Definition falsy (x : option string) : bool :=
  match x with
  | None => true
  | Some a => bool_decide (a = "")
  end.

(** [window.DVL_CONFIG || { ...defaults }]: a configuration given by the
    page replaces the defaults as a whole. *)
Definition DVL_CONFIG (b : browser) : config := default default_config (window_config b).

(** The session identifier: the stored one, or a fresh one that is then
    stored.  The result is the identifier and the storage entry after. *)
Definition session_start (b : browser) : string * option string :=
  if falsy (stored_session b) then
    let sessionId := "dvl_" +:+ pretty (date_now b) +:+ "_" +:+ random_tail b in
    (sessionId, Some sessionId)
  else (default "" (stored_session b), stored_session b).

Definition getDeviceType (b : browser) : string :=
  let width := innerWidth b in
  if decide (width ≤ 768)%Z then "mobile"
  else if decide (width ≤ 1024)%Z then "tablet"
  else "desktop".

(** [sendTracking(type, data)]: the requests it hands to [fetch], each
    with the URL it goes to and the key it puts in the [X-API-Key] header.
    The body is the JSON text of [{type, data}], read back by the server's
    parser (the payloads hold strings and finite numbers, which JSON
    carries unchanged). *)
Definition sendTracking (cfg : config) (type : string) (data : jsval number)
  : list (string * request) :=
  if falsy (apiKey cfg) || falsy (apiUrl cfg) then []
  else [(default "" (apiUrl cfg),
         Request (apiKey cfg) (JObj {[ "type" := JStr type; "data" := data ]}))].

(** Page view tracking, run when the snippet loads. *)
Definition pageData (b : browser) : gmap string (jsval number) :=
  {[ "sessionId" := JStr (session_start b).1;
     "pageUrl" := JStr (href b);
     "referrer" := JStr (str_or (referrer b) "direct");
     "deviceType" := JStr (getDeviceType b);
     "screenResolution" := JStr (pretty (screen_width b) +:+ "x" +:+ pretty (screen_height b));
     "userAgent" := JStr (userAgent b) ]}.

Definition on_snippet_load (b : browser) : list (string * request) :=
  if trackPageViews (DVL_CONFIG b) then sendTracking (DVL_CONFIG b) "user" (JObj (pageData b))
  else [].

(** Performance tracking, run one second after the [load] event. *)
Definition perfPayload (b : browser) (perfData : nav_timing) : gmap string (jsval number) :=
  {[ "pageUrl" := JStr (href b);
     "loadTime" := JNum (minus (loadEventEnd perfData) (loadEventStart perfData));
     "domReady" := JNum (minus (domContentLoadedEventEnd perfData)
                               (domContentLoadedEventStart perfData));
     "ttfb" := JNum (minus (responseStart perfData) (requestStart perfData));
     "deviceType" := JStr (getDeviceType b) ]}.

Definition on_page_loaded (b : browser) (entry : option nav_timing)
  : list (string * request) :=
  if trackPerformance (DVL_CONFIG b) then
    match entry with
    | Some perfData => sendTracking (DVL_CONFIG b) "performance" (JObj (perfPayload b perfData))
    | None => []
    end
  else [].

(** Form tracking, run on every [submit] event of the document. *)
Definition formData (b : browser) (form : element) : gmap string (jsval number) :=
  {[ "formType" := JStr (str_or (form_name form) (str_or (form_id form) "unnamed"));
     "pageUrl" := JStr (href b);
     "referrer" := JStr (str_or (referrer b) "direct");
     "deviceType" := JStr (getDeviceType b);
     "conversionSource" := JStr (str_or (default "" (stored_referrer b)) "direct") ]}.

Definition on_form_submit (b : browser) (form : element) : list (string * request) :=
  if trackForms (DVL_CONFIG b) then
    if decide (tagName form = "FORM") then
      sendTracking (DVL_CONFIG b) "form" (JObj (formData b form))
    else []
  else [].

(** The events the snippet reacts to, and what it sends at each. *)
Inductive page_event : Type :=
  | SnippetLoad
  | PageLoaded (entry : option nav_timing)
  | FormSubmit (form : element).

Definition snippet (b : browser) (ev : page_event) : list (string * request) :=
  match ev with
  | SnippetLoad => on_snippet_load b
  | PageLoaded entry => on_page_loaded b entry
  | FormSubmit form => on_form_submit b form
  end.

(** The browser at a later page load of the same browser session: the
    session storage is what the previous load left. *)
Definition next_load (b b' : browser) : Prop :=
  stored_session b' = (session_start b).2.

End Snippet.

Section DashboardPage.
Context `{SqlDriver} `{!JsRuntime}.

(** The status line of the dashboard page. *)
Inductive status_text : Type :=
  | Connecting          (* Connecting... *)
  | Loading             (* <span class="loading">Loading...</span> *)
  | Online              (* <span class="online">Online</span> *)
  | OnlineRealtime      (* <span class="online">Online (Real-time)</span> *)
  | ConnectionError     (* <span class="error">Connection Error</span> *)
  | Disconnected.       (* <span class="error">Disconnected</span> *)

(** The elements of the page that its script writes to. *)
Record page : Type := Page {
  perfCount : string;
  formCount : string;
  userCount : string;
  avgLoad : string;
  status_line : status_text;
  lastUpdate : string;
}.

Definition initial_page : page :=
  Page "Loading..." "Loading..." "Loading..." "Loading..." Connecting "Last updated: Never".

(** The outcome of [fetch('/api/dashboard')] and [response.json()]. *)
Inductive fetched : Type :=
  | NetworkError
  | Fetched (r : response).

Definition set_status (st : status_text) (p : page) : page :=
  Page (perfCount p) (formCount p) (userCount p) (avgLoad p) st (lastUpdate p).

(** [loadData()].  Reading a property of a missing [stats] part throws,
    and the [catch] sets the status line; what was written before stays. *)
Definition loadData (time_text : string) (f : fetched) (p : page) : page :=
  let p := set_status Loading p in
  match f with
  | NetworkError => set_status ConnectionError p
  | Fetched r =>
      match body r with
      | DashboardBody _ st =>
          match performance st with
          | None => set_status ConnectionError p
          | Some perf =>
              let p := Page (pretty (total perf)) (formCount p) (userCount p) (avgLoad p)
                            (status_line p) (lastUpdate p) in
              match forms st with
              | None => set_status ConnectionError p
              | Some formTotal =>
                  let p := Page (perfCount p) (pretty formTotal) (userCount p) (avgLoad p)
                                (status_line p) (lastUpdate p) in
                  match users st with
                  | None => set_status ConnectionError p
                  | Some sessions =>
                      Page (perfCount p) (formCount p) (pretty sessions)
                           (render_avg (avg_load_time perf)) Online
                           ("Last updated: " +:+ time_text)
                  end
              end
          end
      | _ => set_status ConnectionError p
      end
  end.

End DashboardPage.

(** ** A driver to run examples with

    Numbers are integers, columns hold [NULL], integers or text.  It stands
    for the real driver only in the examples below; every theorem is
    proved for all drivers. *)

Inductive sample_val : Type :=
  | VNull
  | VInt (z : Z)
  | VText (s : string).

Global Instance sample_val_eq_dec : EqDecision sample_val.
Proof. solve_decision. Defined.

Definition sample_bind (a : affinity) (v : jsval Z) : sample_val :=
  match v with
  | JUndefined | JNull => VNull
  | JBool b => VInt (if b then 1 else 0)
  | JNum n => VInt n
  | JStr s => VText s
  | JArr _ | JObj _ => VText "[object Object]"
  end.

Definition sample_avg (vs : list sample_val) : sample_val :=
  let zs : list Z := omap (λ v, match v with VInt z => Some z | _ => None end) vs in
  match zs with
  | [] => VNull
  | _ => VInt (foldr Z.add 0%Z zs `div` Z.of_nat (length zs))
  end.

Definition sample_driver : SqlDriver :=
  {| number := Z; sqlval := sample_val; sql_null := VNull;
     bind_column := sample_bind; sql_avg := sample_avg |}.

Module Sample.
#[local] Existing Instance sample_driver.

Definition empty_table : table := Table [] 0.
Definition empty_db : db := Db empty_table empty_table empty_table empty_table.

(** The form event of the specification's example, and the same event
    with a client-side [timestamp] added. *)
Definition contact_form : gmap string (jsval Z) :=
  {[ "formType" := JStr "contact"; "pageUrl" := JStr "/contact";
     "referrer" := JStr "direct"; "deviceType" := JStr "mobile";
     "conversionSource" := JStr "organic" ]}.

Definition event (ty : string) (data : jsval Z) : jsval Z :=
  JObj {[ "type" := JStr ty; "data" := data ]}.

Definition form_request : request :=
  Request (Some "dvl-media-main") (event "form" (JObj contact_form)).

Definition form_request_stamped : request :=
  Request (Some "dvl-media-main")
    (event "form" (JObj (<["timestamp" := JStr "1999-12-31 23:59:59"]> contact_form))).

(** A tracking request without the [data] property. *)
Definition form_request_no_data : request :=
  Request (Some "dvl-media-main") (JObj {[ "type" := JStr "form" ]}).

Definition bogus_request : request :=
  Request (Some "dvl-media-dev") (event "bogus" (JObj contact_form)).

Definition wrong_key_request : request :=
  Request (Some "dvl-media-prod") (event "form" (JObj contact_form)).

Definition page_view (sid : string) : request :=
  Request (Some "dvl-media-main")
    (event "user" (JObj {[ "sessionId" := JStr sid; "pageUrl" := JStr "/" ]})).

Definition contact_cells : list sample_val :=
  [VText "contact"; VText "/contact"; VText "direct"; VText "mobile"; VText "organic"].

(** The store after one contact form tracked at second 1000, and after a
    second one tracked within the same second. *)
Definition one_form_db : db :=
  Db empty_table empty_table (Table [Row 1 contact_cells 1000] 1) empty_table.

Definition two_form_db : db :=
  Db empty_table empty_table
     (Table [Row 1 contact_cells 1000; Row 2 contact_cells 1000] 2) empty_table.

(** The store after a contact form tracked at second 1000 and another at
    second 2000. *)
Definition later_form_db : db :=
  Db empty_table empty_table
     (Table [Row 1 contact_cells 1000; Row 2 contact_cells 2000] 2) empty_table.

(** A world whose store fails every statement. *)
Definition failing_world : world := World 1700000000000 (λ _, Env 1700000000 false).
Definition working_world : world := World 1700000000000 (λ _, Env 1700000000 true).

End Sample.

(** Browsers and runs for the examples. *)
Definition sample_runtime : @JsRuntime sample_driver :=
  {| minus := Z.sub : @number sample_driver → @number sample_driver → @number sample_driver;
     render_avg := (λ v, match v with
                         | VInt z => if decide (z = 0%Z) then "No data" else pretty z +:+ "ms"
                         | _ => "No data"
                         end) : @sqlval sample_driver → string |}.

Module SampleScripts.
#[local] Existing Instance sample_driver.
#[local] Existing Instance sample_runtime.
Import Sample.

(** A phone without a configuration of the page and with an empty session
    storage; the same phone at its next page load; and a site that
    configures a key of its own. *)
Definition phone : browser :=
  Browser None None None 390 "https://example.org/" "" 390 844 "Mozilla/5.0"
          1700000000000 "k3j9x0q1z".

Definition phone_again : browser :=
  Browser None (Some "dvl_1700000000000_k3j9x0q1z") None 390 "https://example.org/contact"
          "https://example.org/" 390 844 "Mozilla/5.0" 1700000060000 "zzzzzzzzz".

Definition own_key_site : browser :=
  Browser (Some (Config (Some "my-site") (Some "https://analytics.dvlmedia.co.za/api/track")
                        true true true false))
          None None 1280 "https://example.org/" "" 1280 720 "Mozilla/5.0"
          1700000000000 "k3j9x0q1z".

Definition default_url : string := "https://analytics.dvlmedia.co.za/api/track".

Definition sent (key : string) (type : string) (props : gmap string (jsval Z)) : request :=
  Request (Some key) (JObj {[ "type" := JStr type; "data" := JObj props ]}).

(** A run: a form tracked, a listing, a form tracked while the store
    fails, an event of unknown type, the dashboard. *)
Definition sample_run : list (world * endpoint * request) :=
  [(working_world, Track, form_request);
   (working_world, Listing form_submissions, Request None JUndefined);
   (failing_world, Track, form_request);
   (working_world, Track, bogus_request);
   (working_world, Dashboard, Request None JUndefined)].

End SampleScripts.

(** ** Properties of the store's statements *)

Section StoreFacts.
Context `{SqlDriver}.

Implicit Types (r x : row) (rs idx : list row) (s : db) (t : table_name).

Lemma tbl_set_tbl_eq t tb s : tbl t (set_tbl t tb s) = tb.
Proof. by destruct t. Qed.

Lemma tbl_set_tbl_ne t t' tb s : t' ≠ t → tbl t' (set_tbl t tb s) = tbl t' s.
Proof. by destruct t, t'. Qed.

(** *** Ordering *)

Lemma index_insert_perm r idx : index_insert r idx ≡ₚ r :: idx.
Proof.
  induction idx as [|x idx IH]; simpl; [done|].
  case_decide; [done|]. rewrite IH. apply Permutation_swap.
Qed.

Lemma index_insert_sorted r idx :
  StronglySorted newer_first idx → StronglySorted newer_first (index_insert r idx).
Proof.
  induction 1 as [|x idx Hs IH Hx]; simpl.
  - repeat constructor.
  - case_decide as Hlt.
    + constructor; [by constructor|].
      constructor; [unfold newer_first; lia|].
      eapply Forall_impl; [exact Hx|]. unfold newer_first. intros; lia.
    + constructor; [done|].
      rewrite index_insert_perm. constructor; [unfold newer_first; lia|done].
Qed.

Lemma order_from_sorted rs idx :
  StronglySorted newer_first idx →
  StronglySorted newer_first (foldl (λ idx r, index_insert r idx) idx rs).
Proof.
  revert idx. induction rs as [|r rs IH]; intros idx Hs; simpl; [done|].
  by apply IH, index_insert_sorted.
Qed.

Lemma order_from_perm rs idx :
  foldl (λ idx r, index_insert r idx) idx rs ≡ₚ idx ++ rs.
Proof.
  revert idx. induction rs as [|r rs IH]; intros idx; simpl.
  - by rewrite app_nil_r.
  - rewrite IH, index_insert_perm. simpl. apply Permutation_middle.
Qed.

Lemma order_by_sorted rs : StronglySorted newer_first (order_by_timestamp_desc rs).
Proof. apply order_from_sorted. constructor. Qed.

Lemma order_by_perm rs : order_by_timestamp_desc rs ≡ₚ rs.
Proof. unfold order_by_timestamp_desc. by rewrite order_from_perm. Qed.

Lemma order_by_snoc rs r :
  order_by_timestamp_desc (rs ++ [r]) = index_insert r (order_by_timestamp_desc rs).
Proof. unfold order_by_timestamp_desc. by rewrite foldl_app. Qed.

(** A row newer than all the others is filed first. *)
Lemma index_insert_newest r idx :
  Forall (λ x, (timestamp x < timestamp r)%N) idx → index_insert r idx = r :: idx.
Proof.
  destruct idx as [|x idx]; [done|]. intros [Hx _]%Forall_cons. simpl.
  by rewrite decide_True.
Qed.

Lemma take_sorted n rs :
  StronglySorted newer_first rs → StronglySorted newer_first (take n rs).
Proof.
  intros Hs. rewrite <- (take_drop n rs) in Hs.
  by apply StronglySorted_app_1_l in Hs.
Qed.

(** *** Counting distinct values *)

Lemma distinct_NoDup vs seen : NoDup seen → NoDup (distinct vs seen).
Proof.
  revert seen. induction vs as [|v vs IH]; intros seen Hnd; simpl; [done|].
  repeat case_decide; auto. apply IH. by constructor.
Qed.

Lemma elem_of_distinct vs seen v :
  v ∈ distinct vs seen ↔ v ∈ seen ∨ (v ∈ vs ∧ v ≠ sql_null).
Proof.
  revert seen. induction vs as [|w vs IH]; intros seen; simpl.
  - rewrite elem_of_nil. naive_solver.
  - repeat case_decide; rewrite IH, ?elem_of_cons; naive_solver.
Qed.

(** The count is the size of any duplicate-free enumeration of the
    non-[NULL] values. *)
Lemma count_distinct_spec vs l :
  NoDup l → (∀ v, v ∈ l ↔ v ∈ vs ∧ v ≠ sql_null) →
  count_distinct vs = N.of_nat (length l).
Proof.
  intros Hnd Hl. unfold count_distinct. f_equal. apply Permutation_length.
  apply NoDup_Permutation; [apply distinct_NoDup; constructor|done|].
  intros v. rewrite elem_of_distinct, Hl, elem_of_nil. naive_solver.
Qed.

(** Adding occurrences of one value adds at most one to the count. *)
Lemma count_distinct_same_value vs vs' v :
  (∀ w, w ∈ vs' → w ∈ vs ∨ w = v) → (∀ w, w ∈ vs → w ∈ vs') →
  (count_distinct vs ≤ count_distinct vs' ≤ count_distinct vs + 1)%N.
Proof.
  intros Hnew Hold. unfold count_distinct.
  assert (length (distinct vs []) ≤ length (distinct vs' [])) as H1.
  { apply submseteq_length, NoDup_submseteq; [apply distinct_NoDup; constructor|].
    intros w. rewrite !elem_of_distinct, !elem_of_nil. naive_solver. }
  assert (length (distinct vs' []) ≤ length (v :: distinct vs [])) as H2.
  { apply submseteq_length, NoDup_submseteq; [apply distinct_NoDup; constructor|].
    intros w. rewrite elem_of_cons, !elem_of_distinct, !elem_of_nil.
    intros [[]|[Hw ?]]. destruct (Hnew _ Hw); naive_solver. }
  simpl in H2. lia.
Qed.

End StoreFacts.

(** ** Properties of the handlers *)

Section HandlerFacts.
Context `{SqlDriver}.

Implicit Types (req : request) (s : db) (t : table_name) (e : env).
Implicit Types (ty data : jsval number).

Lemma get_prop_nullish data k : nullish data = true → get_prop data k = Throw TypeError.
Proof. by destruct data. Qed.

Lemma get_prop_normal data k : nullish data = false → ∃ v, get_prop data k = Normal v.
Proof. destruct data; simpl; try done; eauto. Qed.

Lemma read_fields_nullish data k ks :
  nullish data = true → read_fields data (k :: ks) = Throw TypeError.
Proof. intros Hd. simpl. by rewrite get_prop_nullish. Qed.

Lemma read_fields_normal data ks :
  nullish data = false → ∃ params, read_fields data ks = Normal params.
Proof.
  intros Hd. induction ks as [|k ks [params IH]]; simpl; [by eexists|].
  destruct (get_prop_normal data k Hd) as [v ->]. rewrite IH. by eexists.
Qed.

Lemma read_fields_head data k ks v params :
  get_prop data k = Normal v → read_fields data (k :: ks) = Normal params →
  ∃ params', params = v :: params'.
Proof.
  intros Hv. simpl. rewrite Hv. simpl.
  destruct (read_fields data ks); simpl; intros [= <-]. by eexists.
Qed.

Lemma read_fields_ext data1 data2 ks :
  (∀ k, k ∈ ks → get_prop data1 k = get_prop data2 k) →
  read_fields data1 ks = read_fields data2 ks.
Proof.
  induction ks as [|k ks IH]; intros Hks; simpl; [done|].
  rewrite (Hks k), IH; [done| |]; set_solver.
Qed.

Lemma payload_fields_cons t : ∃ k ks, payload_fields t = k :: ks.
Proof. destruct t; simpl; eauto. Qed.

Lemma table_of_type_label t : table_of_type (JStr (type_label t)) = Some t.
Proof. by destruct t. Qed.

Lemma table_of_type_Some ty t : table_of_type ty = Some t → ty = JStr (type_label t).
Proof.
  destruct ty; simpl; try done.
  repeat case_decide; intros [= <-]; by subst.
Qed.

Lemma table_of_type_None ty :
  (∀ t, ty ≠ JStr (type_label t)) → table_of_type ty = None.
Proof.
  intros Hty. destruct (table_of_type ty) as [t|] eqn:Ht; [|done].
  by apply table_of_type_Some, Hty in Ht.
Qed.

(** The middleware lets a request through exactly when its key is on the
    allowlist. *)
Lemma validateApiKey_valid req : has_valid_key req → validateApiKey req = None.
Proof.
  intros (k & Hk & Hin). unfold validateApiKey. rewrite Hk.
  rewrite (bool_decide_eq_true_2 (k ∈ validKeys)) by done.
  rewrite bool_decide_eq_false_2; [done|].
  intros ->. exact (bool_decide_eq_false_1 ("" ∈ validKeys) eq_refl Hin).
Qed.

Lemma validateApiKey_invalid req :
  (∀ k, api_key req = Some k → k ∉ validKeys) →
  validateApiKey req = Some (Response 401 (ErrorBody "Invalid or missing API key")).
Proof.
  intros Hk. unfold validateApiKey. destruct (api_key req) as [k|]; [|done].
  rewrite (bool_decide_eq_false_2 (k ∈ validKeys)) by auto.
  by rewrite orb_true_r.
Qed.

(** The shapes of the tracking handler's run. *)
Lemma post_track_accept req t data params :
  has_valid_key req → carries req (JStr (type_label t)) data →
  read_fields data (payload_fields t) = Normal params →
  post_track req = [DbRun t params; Send ack].
Proof.
  intros Hk [Hty Hdata] Hps. unfold post_track, track.
  by rewrite validateApiKey_valid, Hty, Hdata, table_of_type_label, Hps.
Qed.

Lemma post_track_throw req t data :
  has_valid_key req → carries req (JStr (type_label t)) data → nullish data = true →
  post_track req = [Send (Response 500 (ErrorBody "Failed to track data"))].
Proof.
  intros Hk [Hty Hdata] Hd. unfold post_track, track.
  rewrite validateApiKey_valid, Hty, Hdata, table_of_type_label by done.
  destruct (payload_fields_cons t) as (k & ks & ->).
  by rewrite read_fields_nullish.
Qed.

(** The reply of the tracking endpoint is settled before the store runs
    anything: it is the same whatever the store does with the statement. *)
Lemma submit_reply e req s : (submit e req s).1.1 = reply (post_track req).
Proof. unfold submit. by destruct (run_effects _ _ _). Qed.

Lemma submit_reply_env e1 e2 req s1 s2 :
  (submit e1 req s1).1.1 = (submit e2 req s2).1.1.
Proof. by rewrite !submit_reply. Qed.

(** The accepting reply is only sent behind a statement given to the
    driver. *)
Lemma ack_follows_db_run req :
  reply (post_track req) = Some ack →
  ∃ t params, post_track req = [DbRun t params; Send ack].
Proof.
  unfold post_track, track, validateApiKey.
  repeat (case_match; simplify_eq/=; try done); eauto.
Qed.

(** A statement that goes through appends one row to its table. *)
Lemma insert_row_ok e t params s :
  io_ok e = true → (last_rowid (tbl t s) < max_rowid)%Z →
  insert_row e t params s =
    (set_tbl t (Table (rows (tbl t s) ++
                       [Row (last_rowid (tbl t s) + 1)
                            (zip_with bind_column (columns t).*2 params) (now e)])
                      (last_rowid (tbl t s) + 1)) s, None).
Proof.
  intros Hio Hseq. unfold insert_row. rewrite Hio. simpl.
  rewrite bool_decide_eq_false_2; [done|lia].
Qed.

(** A statement changes no table but its own, and there it only appends. *)
Lemma insert_row_frame e t params s t' :
  t' ≠ t → tbl t' (insert_row e t params s).1 = tbl t' s.
Proof.
  intros Hne. unfold insert_row. repeat case_match; simpl; try done.
  by apply tbl_set_tbl_ne.
Qed.

Lemma insert_row_rows e t params s :
  rows (tbl t (insert_row e t params s).1) = rows (tbl t s) ∨
  ∃ cs i, rows (tbl t (insert_row e t params s).1) = rows (tbl t s) ++ [Row i cs (now e)] ∧
          cs = zip_with bind_column (columns t).*2 params.
Proof.
  unfold insert_row. repeat case_match; simpl; auto.
  right. rewrite tbl_set_tbl_eq. simpl. eauto.
Qed.

(** An accepted request: the reply is the accepting one, and the store
    is what the statement makes of it. *)
Lemma submit_accept e req s t data params :
  has_valid_key req → carries req (JStr (type_label t)) data →
  read_fields data (payload_fields t) = Normal params →
  submit e req s =
    (Some ack, (insert_row e t params s).1, option_list (insert_row e t params s).2).
Proof.
  intros Hk Hc Hps. unfold submit. rewrite (post_track_accept req t data params) by done.
  simpl. destruct (insert_row e t params s) as [s1 err]. simpl. by rewrite app_nil_r.
Qed.

(** Whatever a tracking request does to the table of user rows, it is at
    most one row appended, and that row holds the session identifier the
    payload names. *)
Lemma submit_user_rows e req s data sid :
  carries req (JStr "user") data → get_prop data "sessionId" = Normal sid →
  ∃ extra,
    rows (db_users (submit e req s).1.2) = rows (db_users s) ++ extra ∧
    Forall (λ r, cell user_analytics "session_id" r = bind_column TEXT sid) extra.
Proof.
  intros [Hty Hdata] Hsid.
  assert (∃ extra, rows (db_users s) = rows (db_users s) ++ extra ∧
            Forall (λ r, cell user_analytics "session_id" r = bind_column TEXT sid) extra)
    as Hnone by (exists []; by rewrite app_nil_r).
  unfold submit, post_track. destruct (validateApiKey req); [done|].
  unfold track. rewrite Hty, Hdata.
  change (table_of_type (JStr "user")) with (Some user_analytics).
  destruct (read_fields data (payload_fields user_analytics)) as [ps|] eqn:Hps;
    rewrite Hps; [|done].
  apply (read_fields_head _ _ _ _ _ Hsid) in Hps as [ps' ->].
  unfold run_effects.
  destruct (insert_row_rows e user_analytics (sid :: ps') s) as [Hr|(cs & i & Hr & ->)];
    destruct (insert_row e user_analytics (sid :: ps') s) as [s1 err]; simpl in *.
  - by rewrite Hr.
  - eexists. split; [exact Hr|]. by repeat constructor.
Qed.

Lemma submit_all_user_rows (jobs : list (env * request)) s sid :
  Forall (λ j, ∃ data, carries j.2 (JStr "user") data ∧
                       get_prop data "sessionId" = Normal sid) jobs →
  ∃ extra,
    rows (db_users (submit_all jobs s)) = rows (db_users s) ++ extra ∧
    Forall (λ r, cell user_analytics "session_id" r = bind_column TEXT sid) extra.
Proof.
  intros Hjobs. revert s.
  induction Hjobs as [|[e req] jobs (data & Hc & Hsid) _ IH]; intros s.
  - exists []. by rewrite app_nil_r.
  - destruct (submit_user_rows e req s data sid Hc Hsid) as (x1 & Hr1 & Hx1).
    destruct (IH (submit e req s).1.2) as (x2 & Hr2 & Hx2).
    exists (x1 ++ x2). split; [|by apply Forall_app].
    unfold submit_all in *. simpl. by rewrite Hr2, Hr1, app_assoc.
Qed.

End HandlerFacts.

(** ** The specification's properties *)

Section Claims.
Context `{SqlDriver}.

Implicit Types (req : request) (s : db) (t : table_name) (e : env).
Implicit Types (ty data : jsval number).

(** C1. A tracking request whose API key is absent or not on the
    allowlist is answered 401 (Unauthorized), whatever its body; no
    statement is given to the store, and the store is left exactly as it
    was. *)
Theorem submit_unauthorized e req s :
  (∀ k, api_key req = Some k → k ∉ validKeys) →
  post_track req = [Send (Response 401 (ErrorBody "Invalid or missing API key"))] ∧
  submit e req s = (Some (Response 401 (ErrorBody "Invalid or missing API key")), s, []).
Proof.
  intros Hk. unfold submit, post_track. by rewrite validateApiKey_invalid.
Qed.

(** C3. With a valid API key, a request whose event type is not one of
    performance, seo, form, user is answered 400 (InvalidRequest),
    whatever its payload; the store is unchanged, and so is the row count
    of each of the four tables. *)
Theorem submit_unknown_type e req s ty data :
  has_valid_key req → carries req ty data →
  (∀ t, ty ≠ JStr (type_label t)) →
  ∃ s',
    submit e req s = (Some (Response 400 (ErrorBody "Invalid tracking type")), s', []) ∧
    s' = s ∧ ∀ t, row_count t s' = row_count t s.
Proof.
  intros Hk [Hty Hdata] Hno. exists s. split; [|done].
  unfold submit, post_track, track.
  by rewrite validateApiKey_valid, Hty, Hdata, table_of_type_None.
Qed.

(** C8 (as amended). With a valid API key and a valid event type, a
    request whose [data] is absent or null is answered by the handler's
    catch-all reply, 500 "Failed to track data", and nothing is written;
    every other payload is answered with the accepting reply. *)
Theorem submit_unusable_payload e req s t data :
  has_valid_key req → carries req (JStr (type_label t)) data →
  if nullish data
  then submit e req s = (Some (Response 500 (ErrorBody "Failed to track data")), s, [])
  else (submit e req s).1.1 = Some ack.
Proof.
  intros Hk Hc. destruct (nullish data) eqn:Hd.
  - unfold submit. by rewrite (post_track_throw req t data).
  - destruct (read_fields_normal data (payload_fields t) Hd) as [params Hps].
    by rewrite submit_reply, (post_track_accept req t data params).
Qed.

(** C10. The health route answers every request, with or without an API
    key, with status "healthy" and database "connected"; it issues no
    statement and leaves the store unchanged, so the answer is the same
    for every state of the store, every request and every outcome the
    store would have had (only the wall clock shows in it). *)
Theorem health_always_healthy (w : world) req s :
  serve w Health req s =
    (Some (Response 200 (HealthBody "healthy" "DVL Analytics API" "1.0.0"
                                    (wall_clock w) "connected")), s) ∧
  ∀ (outcomes : nat → env) req' s',
    (serve (World (wall_clock w) outcomes) Health req' s').1 = (serve w Health req s).1.
Proof. split; [reflexivity|]. intros outcomes req' s'. reflexivity. Qed.

(** C6. Every listing route answers, for every state of the store and
    every request, with at most 100 rows, newest timestamp first; the rows
    are the head of the whole table in that order (nothing is skipped: any
    row left out is no newer than every row returned), and nothing in the
    request moves the page.  A failing query is answered 500. *)
Theorem list_recent_page (w : world) t req s :
  if io_ok (stmt_env w 0) then
    ∃ rs rest,
      serve w (Listing t) req s = (Some (Response 200 (RowsBody rs)), s) ∧
      length rs ≤ 100 ∧ length rs = min 100 (row_count t s) ∧
      StronglySorted newer_first rs ∧
      rs ++ rest ≡ₚ rows (tbl t s) ∧
      (∀ x y, x ∈ rs → y ∈ rest → (timestamp y ≤ timestamp x)%N) ∧
      ∀ req', serve w (Listing t) req' s = serve w (Listing t) req s
  else serve w (Listing t) req s = (Some (Response 500 (ErrorBody "Database error")), s).
Proof.
  simpl. unfold get_list, db_query. destruct (io_ok (stmt_env w 0)); [|done].
  pose proof (order_by_sorted (rows (tbl t s))) as Hs.
  pose proof (order_by_perm (rows (tbl t s))) as Hp.
  exists (select_recent t s), (drop page_size (order_by_timestamp_desc (rows (tbl t s)))).
  unfold select_recent, row_count, page_size.
  rewrite length_take, take_drop, (Permutation_length Hp).
  repeat split; [lia|by apply take_sorted|done|].
  intros x y Hx Hy. rewrite <- (take_drop 100) in Hs.
  apply (StronglySorted_app_1_elem_of _ _ _ _ _ Hs Hx Hy).
Qed.

(** C7. The dashboard summary is all or nothing: when its three
    sub-queries all succeed the reply is a summary object with all three
    parts filled in; as soon as one of them fails the reply is 500
    "Database error" and carries no summary at all. *)
Theorem dashboard_all_or_nothing (wall : N) (e1 e2 e3 : env) s :
  if io_ok e1 && io_ok e2 && io_ok e3 then
    ∃ p f u,
      get_dashboard wall e1 e2 e3 s =
        Response 200 (DashboardBody wall (Stats (Some p) (Some f) (Some u)))
  else
    get_dashboard wall e1 e2 e3 s = Response 500 (ErrorBody "Database error").
Proof.
  unfold get_dashboard, db_query.
  destruct (io_ok e1), (io_ok e2), (io_ok e3); simpl; eauto.
Qed.

(** C4 (as amended). For every event type and every payload whose [data]
    is neither absent nor null, when the store carries out the insert the
    request is acknowledged, the table of that kind gains exactly one row,
    stamped with the engine's clock, and the other three tables are
    unchanged; the listing of that kind then comes newest timestamp first,
    and starts with the new row whenever every earlier row of the table has
    a strictly smaller timestamp. *)
Theorem submit_then_list e e' req s t data :
  has_valid_key req → carries req (JStr (type_label t)) data → nullish data = false →
  io_ok e = true → (last_rowid (tbl t s) < max_rowid)%Z → io_ok e' = true →
  ∃ r s' rs,
    submit e req s = (Some ack, s', []) ∧
    rows (tbl t s') = rows (tbl t s) ++ [r] ∧ timestamp r = now e ∧
    row_count t s' = S (row_count t s) ∧
    (∀ t', t' ≠ t → tbl t' s' = tbl t' s) ∧
    get_list t e' s' = Response 200 (RowsBody rs) ∧
    StronglySorted newer_first rs ∧
    (Forall (λ x, (timestamp x < now e)%N) (rows (tbl t s)) → head rs = Some r).
Proof.
  intros Hk Hc Hd Hio Hseq Hio'.
  destruct (read_fields_normal data (payload_fields t) Hd) as [params Hps].
  rewrite (submit_accept e req s t data params), insert_row_ok by done. simpl.
  eexists _, _, _. split; [done|]. rewrite tbl_set_tbl_eq. simpl.
  split; [done|]. split; [done|].
  split; [unfold row_count; rewrite tbl_set_tbl_eq; simpl; rewrite length_app; simpl; lia|].
  split; [by intros; apply tbl_set_tbl_ne|].
  unfold get_list, db_query. rewrite Hio'. split; [done|].
  unfold select_recent. rewrite tbl_set_tbl_eq. simpl.
  split; [apply take_sorted, order_by_sorted|].
  intros Hnew. rewrite order_by_snoc, index_insert_newest; [done|].
  by rewrite order_by_perm.
Qed.

(** C5. With the three sub-queries succeeding, the [unique_sessions] of
    the dashboard summary is the number of distinct session identifiers
    among the user rows whose timestamp falls on the day of the query
    (it is the length of a duplicate-free list of exactly those
    identifiers; rows without an identifier do not count); and after any
    number of tracked user events that all carry one and the same session
    identifier, the count is the old one or the old one plus 1. *)
Theorem unique_sessions_counts_distinct (wall : N) (e1 e2 e3 : env) s :
  io_ok e1 = true → io_ok e2 = true → io_ok e3 = true →
  ∃ p f u,
    get_dashboard wall e1 e2 e3 s =
      Response 200 (DashboardBody wall (Stats (Some p) (Some f) (Some u))) ∧
    (∃ l, NoDup l ∧ (∀ v, v ∈ l ↔ session_of_today (now e3) s v) ∧
          u = N.of_nat (length l)) ∧
    ∀ (jobs : list (env * request)) sid,
      Forall (λ j, ∃ data, carries j.2 (JStr "user") data ∧
                           get_prop data "sessionId" = Normal sid) jobs →
      ∃ p' f' u',
        get_dashboard wall e1 e2 e3 (submit_all jobs s) =
          Response 200 (DashboardBody wall (Stats (Some p') (Some f') (Some u'))) ∧
        (u ≤ u' ≤ u + 1)%N.
Proof.
  intros H1 H2 H3. unfold get_dashboard, db_query. rewrite H1, H2, H3. simpl.
  eexists _, _, _. split; [done|]. split.
  - exists (distinct (cell user_analytics "session_id" <$> today (now e3) (rows (db_users s))) []).
    split; [apply distinct_NoDup; constructor|]. split; [|done].
    intros v. rewrite elem_of_distinct, elem_of_nil, list_elem_of_fmap.
    unfold session_of_today, today. setoid_rewrite list_elem_of_filter. naive_solver.
  - intros jobs sid Hjobs. simpl. eexists _, _, _. split; [done|].
    destruct (submit_all_user_rows jobs s sid Hjobs) as (extra & Hr & Hx).
    unfold select_unique_sessions, today. rewrite Hr, filter_app, fmap_app.
    apply (count_distinct_same_value _ _ (bind_column TEXT sid)).
    + intros w [?|Hw]%elem_of_app; [by left|right].
      apply list_elem_of_fmap in Hw as (r & -> & [_ Hin]%list_elem_of_filter).
      rewrite Forall_forall in Hx. by apply Hx.
    + intros w Hw. apply elem_of_app. by left.
Qed.

(** C9. The timestamp of a stored row is the engine's clock at the insert,
    and the row is made of the recognized payload properties only: two
    accepted requests for the same event type whose payloads agree on
    those properties (and differ, say, in a client-side [timestamp] or in
    any other property) store the same row, equal in every column, with
    the timestamp of the engine. *)
Theorem stored_row_ignores_client_keys e req1 req2 s t data1 data2 :
  has_valid_key req1 → has_valid_key req2 →
  carries req1 (JStr (type_label t)) data1 → carries req2 (JStr (type_label t)) data2 →
  nullish data1 = false →
  (∀ k, k ∈ payload_fields t → get_prop data1 k = get_prop data2 k) →
  io_ok e = true → (last_rowid (tbl t s) < max_rowid)%Z →
  ∃ r s',
    submit e req1 s = (Some ack, s', []) ∧ submit e req2 s = (Some ack, s', []) ∧
    rows (tbl t s') = rows (tbl t s) ++ [r] ∧ timestamp r = now e.
Proof.
  intros Hk1 Hk2 Hc1 Hc2 Hd Hagree Hio Hseq.
  destruct (read_fields_normal data1 (payload_fields t) Hd) as [params Hps].
  pose proof Hps as Hps2. rewrite (read_fields_ext data1 data2) in Hps2 by done.
  rewrite (submit_accept e req1 s t data1 params), (submit_accept e req2 s t data2 params),
    insert_row_ok by done. simpl.
  eexists _, _. split; [done|]. split; [done|]. by rewrite tbl_set_tbl_eq.
Qed.

End Claims.

(** ** Further properties of the handlers and of the store *)

Section MoreFacts.
Context `{SqlDriver}.

Implicit Types (req : request) (s : db) (t : table_name) (e : env).
Implicit Types (ty data : jsval number) (r : row) (rs : list row).

Lemma validateApiKey_None req : validateApiKey req = None → has_valid_key req.
Proof.
  unfold validateApiKey. destruct (api_key req) as [k|] eqn:Hk; [|done].
  destruct (bool_decide (k ∈ validKeys)) eqn:Hin; [|by rewrite orb_true_r].
  intros _. exists k. split; [done|]. by apply bool_decide_eq_true in Hin.
Qed.

Lemma has_valid_key_dec req : has_valid_key req ∨ ¬ has_valid_key req.
Proof.
  destruct (validateApiKey req) eqn:Hv.
  - right. intros Hk. by rewrite validateApiKey_valid in Hv.
  - left. by apply validateApiKey_None.
Qed.

Lemma type_label_inj t t' : type_label t = type_label t' → t = t'.
Proof. by destruct t, t'. Qed.

Lemma read_fields_lookup data ks params i k :
  read_fields data ks = Normal params → ks !! i = Some k →
  ∃ v, get_prop data k = Normal v ∧ params !! i = Some v.
Proof.
  revert params i. induction ks as [|k' ks IH]; intros params i; simpl; [done|].
  destruct (get_prop data k') as [v'|] eqn:Hv'; simpl; [|done].
  destruct (read_fields data ks) as [ps|]; simpl; [|done].
  intros [= <-]. destruct i as [|i]; simpl.
  - intros [= <-]. eauto.
  - intros Hk. by apply IH.
Qed.

Lemma read_fields_length data ks params :
  read_fields data ks = Normal params → length params = length ks.
Proof.
  revert params. induction ks as [|k ks IH]; intros params; simpl.
  - by intros [= <-].
  - destruct (get_prop data k); simpl; [|done].
    destruct (read_fields data ks) as [ps|]; simpl; [|done].
    intros [= <-]. simpl. by rewrite (IH ps).
Qed.

Lemma column_index_lookup (cols : list (string * affinity)) i c a :
  NoDup cols.*1 → cols !! i = Some (c, a) → column_index c cols = Some i.
Proof.
  revert i. induction cols as [|[c' a'] cols IH]; intros i Hnd Hi; [done|].
  apply NoDup_cons in Hnd as [Hc' Hnd]. simpl. destruct i as [|i]; simpl in Hi.
  - injection Hi as -> ->. by rewrite decide_True.
  - assert (c' ≠ c) as Hne.
    { intros ->. apply Hc'. apply list_elem_of_fmap. exists (c, a). split; [done|].
      by eapply list_elem_of_lookup_2. }
    by rewrite decide_False, (IH i).
Qed.

Lemma columns_NoDup t : NoDup (columns t).*1.
Proof. destruct t; cbn; apply (bool_decide_unpack (NoDup _)); by vm_compute. Qed.

Lemma columns_payload_length t : length (columns t) = length (payload_fields t).
Proof. by destruct t. Qed.

(** What one tracking request can do to the store. *)
Lemma submit_store e req s :
  (submit e req s).1.2 = s ∨
  ∃ t params,
    post_track req = [DbRun t params; Send ack] ∧
    (submit e req s).1.2 = (insert_row e t params s).1.
Proof.
  unfold submit, post_track, track.
  destruct (validateApiKey req); [by left|].
  destruct (get_prop (req_body req) "type") as [ty|], (get_prop (req_body req) "data") as [data|];
    try (by left).
  destruct (table_of_type ty) as [t|]; [|by left].
  destruct (read_fields data (payload_fields t)) as [params|]; [|by left].
  right. exists t, params. split; [done|]. simpl.
  by destruct (insert_row e t params s).
Qed.

Lemma insert_row_cases e t params s :
  (insert_row e t params s).1 = s ∨
  (io_ok e = true ∧ (last_rowid (tbl t s) < max_rowid)%Z ∧
   (insert_row e t params s).1 =
     set_tbl t (Table (rows (tbl t s) ++
                       [Row (last_rowid (tbl t s) + 1)
                            (zip_with bind_column (columns t).*2 params) (now e)])
                      (last_rowid (tbl t s) + 1)) s).
Proof.
  unfold insert_row. destruct (io_ok e); simpl; [|by left].
  case_bool_decide; simpl; [by left|]. right. split; [done|]. split; [lia|done].
Qed.

(** One request leaves every table as it was or appends one row to it. *)
Lemma serve_rows (w : world) (ep : endpoint) req s t :
  ∃ extra,
    rows (tbl t (serve w ep req s).2) = rows (tbl t s) ++ extra ∧
    length extra ≤ (if is_track ep then 1 else 0).
Proof.
  assert (∀ n, ∃ extra, rows (tbl t s) = rows (tbl t s) ++ extra ∧ length extra ≤ n)
    as Hsame by (intros n; exists []; rewrite app_nil_r; simpl; split; [done|lia]).
  destruct ep; simpl; try apply Hsame.
  destruct (submit_store (stmt_env w 0) req s) as [->|(t' & params & _ & ->)]; [apply Hsame|].
  destruct (insert_row_cases (stmt_env w 0) t' params s) as [->|(_ & _ & ->)]; [apply Hsame|].
  destruct (decide (t = t')) as [->|Hne].
  - rewrite tbl_set_tbl_eq. simpl. eexists. split; [done|]. simpl. lia.
  - rewrite tbl_set_tbl_ne by done. apply Hsame.
Qed.

Lemma length_distinct (vs seen : list sqlval) :
  length (distinct vs seen) ≤ length vs + length seen.
Proof.
  revert seen. induction vs as [|v vs IH]; intros seen; simpl; [lia|].
  repeat case_decide; try (specialize (IH seen); lia).
  specialize (IH (v :: seen)). simpl in IH. lia.
Qed.

Lemma order_by_chronological rs :
  chronological rs → order_by_timestamp_desc rs = reverse rs.
Proof.
  induction rs as [|r rs IH] using rev_ind; [done|]. intros Hc.
  apply StronglySorted_app in Hc as (Hlt & Hrs & _).
  rewrite order_by_snoc, IH, reverse_snoc by done.
  apply index_insert_newest, Forall_forall. intros x Hx. rewrite elem_of_reverse in Hx.
  apply Hlt; [done|]. by constructor.
Qed.

(** One request adds at most one row to the store as a whole, and only a
    tracking request adds any. *)
Lemma serve_total_rows (w : world) (ep : endpoint) req s :
  total_rows s ≤ total_rows (serve w ep req s).2 ≤
    total_rows s + (if is_track ep then 1 else 0).
Proof.
  destruct ep; simpl; try lia.
  destruct (submit_store (stmt_env w 0) req s) as [->|(t & params & _ & ->)]; [lia|].
  destruct (insert_row_cases (stmt_env w 0) t params s) as [->|(_ & _ & ->)]; [lia|].
  unfold total_rows, row_count. destruct t; simpl; rewrite length_app; simpl; lia.
Qed.

Lemma serve_keys_ok (w : world) (ep : endpoint) req s :
  db_keys_ok s → db_keys_ok (serve w ep req s).2.
Proof.
  intros Hok. destruct ep; simpl; try done.
  destruct (submit_store (stmt_env w 0) req s) as [->|(t & params & _ & ->)]; [done|].
  destruct (insert_row_cases (stmt_env w 0) t params s) as [->|(_ & Hlt & ->)]; [done|].
  intros t'. destruct (decide (t' = t)) as [->|Hne]; [|by rewrite tbl_set_tbl_ne].
  rewrite tbl_set_tbl_eq. destruct (Hok t) as (Hs & Hb & Hl).
  split; [|split]; simpl.
  - apply StronglySorted_app_2; [|done|repeat constructor].
    intros x y Hx ->%list_elem_of_singleton. simpl.
    rewrite Forall_forall in Hb. specialize (Hb x Hx). lia.
  - apply Forall_app. split; [|repeat constructor; simpl; lia].
    eapply Forall_impl; [exact Hb|]. simpl. intros; lia.
  - lia.
Qed.

(** One session identifier over many tracked user events: the count of the
    day moves by at most one. *)
Lemma unique_sessions_one_session (jobs : list (env * request)) sid (clock : N) s :
  Forall (λ j, ∃ data, carries j.2 (JStr "user") data ∧
                       get_prop data "sessionId" = Normal sid) jobs →
  (select_unique_sessions clock s ≤ select_unique_sessions clock (submit_all jobs s)
     ≤ select_unique_sessions clock s + 1)%N.
Proof.
  intros Hjobs. destruct (submit_all_user_rows jobs s sid Hjobs) as (extra & Hr & Hx).
  unfold select_unique_sessions, today. rewrite Hr, filter_app, fmap_app.
  apply (count_distinct_same_value _ _ (bind_column TEXT sid)).
  - intros w [?|Hw]%elem_of_app; [by left|right].
    apply list_elem_of_fmap in Hw as (r & -> & [_ Hin]%list_elem_of_filter).
    rewrite Forall_forall in Hx. by apply Hx.
  - intros w Hw. apply elem_of_app. by left.
Qed.

End MoreFacts.

(** ** Properties of the browser scripts *)

Section ScriptFacts.
Context `{SqlDriver} `{!JsRuntime}.

Implicit Types (b : browser) (cfg : config) (req : request) (ev : page_event).

Lemma falsy_false (x : option string) :
  falsy x = false → ∃ a, x = Some a ∧ a ≠ "".
Proof.
  destruct x as [a|]; simpl; [|done]. intros Ha%bool_decide_eq_false. eauto.
Qed.

(** What [sendTracking] posts, when it posts. *)
Lemma sendTracking_inv cfg type data url req :
  (url, req) ∈ sendTracking cfg type data →
  ∃ k, apiKey cfg = Some k ∧ k ≠ "" ∧ apiUrl cfg = Some url ∧ url ≠ "" ∧
       req = Request (Some k) (JObj {[ "type" := JStr type; "data" := data ]}) ∧
       sendTracking cfg type data = [(url, req)].
Proof.
  unfold sendTracking.
  destruct (falsy (apiKey cfg)) eqn:Hk; simpl; [by intros ?%elem_of_nil|].
  destruct (falsy (apiUrl cfg)) eqn:Hu; simpl; [by intros ?%elem_of_nil|].
  apply falsy_false in Hk as (k & Hk & Hk'). apply falsy_false in Hu as (u & Hu & Hu').
  rewrite Hk, Hu. simpl. intros [= -> ->]%list_elem_of_singleton. eauto 10.
Qed.

Lemma sent_body_carries (k : option string) (type : string) (data : jsval number) :
  carries (Request k (JObj {[ "type" := JStr type; "data" := data ]})) (JStr type) data.
Proof. split; reflexivity. Qed.

(** Every request of the snippet comes from [sendTracking], for one of
    three event types and with that event's payload. *)
Lemma snippet_inv b ev url req :
  (url, req) ∈ snippet b ev →
  ∃ t props,
    snippet b ev = sendTracking (DVL_CONFIG b) (type_label t) (JObj props) ∧
    ((t = user_analytics ∧ props = pageData b) ∨
     (t = performance_metrics ∧ ∃ perfData, props = perfPayload b perfData) ∨
     (t = form_submissions ∧ ∃ form, props = formData b form)).
Proof.
  destruct ev as [|[perfData|]|form]; simpl;
    unfold on_snippet_load, on_page_loaded, on_form_submit;
    repeat case_match; try (by intros ?%elem_of_nil); intros _.
  - exists user_analytics. eauto 10.
  - exists performance_metrics. eauto 10.
  - exists form_submissions. eauto 10.
Qed.

End ScriptFacts.

Section Extras.
Context `{SqlDriver}.

Implicit Types (req : request) (s : db) (t : table_name) (e : env).
Implicit Types (ty data : jsval number) (r : row) (rs : list row).

(** X1. The reply of the tracking endpoint to a request with a body
    [{type, data}] is decided in this order: 401 exactly when the key is
    not on the allowlist; else 400 exactly when the type is none of the
    four labels; else 500 exactly when [data] is absent or null; else the
    accepting reply. *)
Theorem track_reply_decision req ty data :
  carries req ty data →
  (reply (post_track req) = Some unauthorized ↔ ¬ has_valid_key req) ∧
  (reply (post_track req) = Some invalid_type ↔
     has_valid_key req ∧ ∀ t, ty ≠ JStr (type_label t)) ∧
  (reply (post_track req) = Some track_failed ↔
     has_valid_key req ∧ (∃ t, ty = JStr (type_label t)) ∧ nullish data = true) ∧
  (reply (post_track req) = Some ack ↔
     has_valid_key req ∧ (∃ t, ty = JStr (type_label t)) ∧ nullish data = false).
Proof.
  intros Hc. destruct (has_valid_key_dec req) as [Hk|Hk].
  - destruct (table_of_type ty) as [t|] eqn:Ht.
    + apply table_of_type_Some in Ht as ->.
      assert (¬ ∀ t', (JStr (type_label t) : jsval number) ≠ JStr (type_label t'))
        as Hno by (intros Hno; by apply (Hno t)).
      destruct (nullish data) eqn:Hd.
      * rewrite (post_track_throw req t data) by done. simpl.
        unfold unauthorized, invalid_type, track_failed, ack.
        repeat split; try discriminate; try tauto; eauto; intros; exfalso; naive_solver.
      * destruct (read_fields_normal data (payload_fields t) Hd) as [params Hps].
        rewrite (post_track_accept req t data params) by done. simpl.
        unfold unauthorized, invalid_type, track_failed, ack.
        repeat split; try discriminate; try tauto; eauto; intros; exfalso; naive_solver.
    + assert (∀ t, ty ≠ JStr (type_label t)) as Hno.
      { intros t ->. by rewrite table_of_type_label in Ht. }
      destruct Hc as [Hty Hdata]. unfold post_track, track.
      rewrite validateApiKey_valid, Hty, Hdata, Ht by done. simpl.
      unfold unauthorized, invalid_type, track_failed, ack.
      repeat split; try discriminate; try tauto; eauto; intros; exfalso; naive_solver.
  - unfold post_track. rewrite validateApiKey_invalid.
    + simpl. unfold unauthorized, invalid_type, track_failed, ack.
      repeat split; try discriminate; try tauto; eauto; intros; exfalso; naive_solver.
    + intros k Hkey Hin. apply Hk. by exists k.
Qed.

(** X2. A tracking request that is not acknowledged has written nothing:
    for every request and store, either the reply is the accepting one,
    or the store is exactly as before and the driver raised no error. *)
Theorem track_writes_only_with_ack e req s :
  (submit e req s).1.1 = Some ack ∨
  ((submit e req s).1.2 = s ∧ (submit e req s).2 = []).
Proof.
  unfold submit, post_track, track.
  destruct (validateApiKey req); [by right|].
  destruct (get_prop (req_body req) "type") as [ty|], (get_prop (req_body req) "data") as [data|];
    try (by right).
  destruct (table_of_type ty) as [t|]; [|by right].
  destruct (read_fields data (payload_fields t)) as [params|]; [|by right].
  left. simpl. by destruct (insert_row e t params s).
Qed.

(** X3. The store is append-only over any run of requests to any routes:
    every table keeps its old rows, in place and unchanged, as the
    beginning of its new rows; and the store as a whole grows by at most
    one row per tracking request of the run (not at all by the others). *)
Theorem run_append_only (jobs : list (world * endpoint * request)) s :
  (∀ t, rows (tbl t s) `prefix_of` rows (tbl t (serve_all jobs s))) ∧
  total_rows s ≤ total_rows (serve_all jobs s) ≤ total_rows s + track_count jobs.
Proof.
  revert s. induction jobs as [|[[w ep] req] jobs IH]; intros s.
  - split; [done|]. unfold track_count. simpl. lia.
  - destruct (IH (serve w ep req s).2) as [Hpre Htot].
    pose proof (serve_total_rows w ep req s) as Hone. split.
    + intros t. destruct (serve_rows w ep req s t) as (extra & Hr & _).
      etrans; [|apply Hpre]. rewrite Hr. by apply prefix_app_r.
    + unfold serve_all in *. simpl. unfold track_count in *.
      rewrite filter_cons. simpl. destruct (is_track ep) eqn:Hep.
      * rewrite decide_True by done. simpl. lia.
      * rewrite decide_False by done. lia.
Qed.

(** X4. Row keys stay as [AUTOINCREMENT] hands them out over any run: if
    in every table the keys are positive, grow with the rowid order and
    do not exceed the table's sequence entry, the same holds after the
    run; in particular no two rows of a table share a key. *)
Theorem run_keeps_keys (jobs : list (world * endpoint * request)) s :
  db_keys_ok s →
  db_keys_ok (serve_all jobs s) ∧
  ∀ t, NoDup (id <$> rows (tbl t (serve_all jobs s))).
Proof.
  intros Hok. assert (db_keys_ok (serve_all jobs s)) as Hok'.
  { revert s Hok. induction jobs as [|[[w ep] req] jobs IH]; intros s Hok; [done|].
    apply (IH (serve w ep req s).2), serve_keys_ok, Hok. }
  split; [done|]. intros t. destruct (Hok' t) as (Hs & _ & _).
  induction Hs as [|x l _ IH Hx]; [constructor|]. rewrite fmap_cons.
  constructor; [|done]. intros (y & Hxy & Hy)%list_elem_of_fmap.
  rewrite Forall_forall in Hx. specialize (Hx y Hy). lia.
Qed.

(** X5. What a payload names in a field is what the new row holds in the
    column of the same position: in an accepted and executed insert, the
    new row has one cell per data column, and for every position the
    column's cell is the payload property of that position (absent
    properties read as [undefined]), converted for the column's declared
    type. *)
Theorem tracked_fields_land_in_columns e req s t data :
  has_valid_key req → carries req (JStr (type_label t)) data → nullish data = false →
  io_ok e = true → (last_rowid (tbl t s) < max_rowid)%Z →
  ∃ r,
    rows (tbl t (submit e req s).1.2) = rows (tbl t s) ++ [r] ∧
    id r = (last_rowid (tbl t s) + 1)%Z ∧
    length (cells r) = length (columns t) ∧
    ∀ i col aff k,
      columns t !! i = Some (col, aff) → payload_fields t !! i = Some k →
      ∃ v, get_prop data k = Normal v ∧ cell t col r = bind_column aff v.
Proof.
  intros Hk Hc Hd Hio Hseq.
  destruct (read_fields_normal data (payload_fields t) Hd) as [params Hps].
  rewrite (submit_accept e req s t data params), insert_row_ok by done. simpl.
  rewrite tbl_set_tbl_eq. simpl. eexists. split; [done|]. split; [done|]. simpl.
  pose proof (read_fields_length _ _ _ Hps) as Hlen. split.
  - rewrite length_zip_with_l_eq; rewrite length_fmap; [done|].
    by rewrite columns_payload_length.
  - intros i col aff k Hcol Hfield.
    destruct (read_fields_lookup _ _ _ _ _ Hps Hfield) as (v & Hv & Hpi).
    exists v. split; [done|]. unfold cell.
    rewrite (column_index_lookup _ i col aff (columns_NoDup t) Hcol). simpl.
    by rewrite lookup_zip_with, list_lookup_fmap, Hcol, Hpi.
Qed.

(** X6. An accepted and executed insert shows in the dashboard totals of
    its own day only: the total of its kind (performance, forms) read at
    a clock of the same day grows by exactly 1; read on any other day, or
    for the other kind, the totals are what they were. *)
Theorem dashboard_totals_after_tracking e req s t data (clock : N) :
  has_valid_key req → carries req (JStr (type_label t)) data → nullish data = false →
  io_ok e = true → (last_rowid (tbl t s) < max_rowid)%Z →
  let s' := (submit e req s).1.2 in
  let same_day k := bool_decide (t = k ∧ date_of (now e) = date_of clock) in
  select_form_total clock s' =
    (select_form_total clock s + (if same_day form_submissions then 1 else 0))%N ∧
  total (select_performance_stats clock s') =
    (total (select_performance_stats clock s) +
     (if same_day performance_metrics then 1 else 0))%N.
Proof.
  intros Hk Hc Hd Hio Hseq.
  destruct (read_fields_normal data (payload_fields t) Hd) as [params Hps].
  rewrite (submit_accept e req s t data params), insert_row_ok by done. simpl.
  unfold select_form_total, select_performance_stats, today. simpl.
  destruct t; simpl; rewrite ?filter_app, ?filter_cons, ?filter_nil; simpl;
    repeat case_bool_decide; repeat case_decide;
    rewrite ?length_app, ?app_nil_r; simpl; try lia; naive_solver.
Qed.

(** X7. The dashboard numbers never exceed the tables: the unique
    sessions of a day are at most the user rows of that day, which are at
    most all user rows; the form and performance totals are at most the
    rows of their tables. *)
Theorem dashboard_counts_bounded (clock : N) s :
  (select_unique_sessions clock s ≤ N.of_nat (length (today clock (rows (db_users s)))))%N ∧
  length (today clock (rows (db_users s))) ≤ row_count user_analytics s ∧
  (select_form_total clock s ≤ N.of_nat (row_count form_submissions s))%N ∧
  (total (select_performance_stats clock s) ≤ N.of_nat (row_count performance_metrics s))%N.
Proof.
  unfold select_unique_sessions, count_distinct, select_form_total,
    select_performance_stats, row_count, today. simpl.
  pose proof (length_distinct
    (cell user_analytics "session_id" <$>
       filter (λ r, date_of (timestamp r) = date_of clock) (rows (db_users s))) []) as Hd.
  rewrite length_fmap in Hd. simpl in Hd.
  pose proof (length_filter (λ r, date_of (timestamp r) = date_of clock) (rows (db_users s))).
  pose proof (length_filter (λ r, date_of (timestamp r) = date_of clock) (rows (db_forms s))).
  pose proof (length_filter (λ r, date_of (timestamp r) = date_of clock)
                (rows (db_performance s))).
  repeat split; lia.
Qed.

(** X8. When the rows of a table were inserted at strictly growing
    seconds, its listing is the table read backwards, cut at 100 rows:
    the last insert first. *)
Theorem listing_of_chronological_table t e s :
  chronological (rows (tbl t s)) →
  get_list t e s =
    if io_ok e then Response 200 (RowsBody (take 100 (reverse (rows (tbl t s)))))
    else Response 500 (ErrorBody "Database error").
Proof.
  intros Hc. unfold get_list, db_query, select_recent.
  destruct (io_ok e); [|done]. by rewrite order_by_chronological.
Qed.

(** X9. Rows of other days do not show on the dashboard: when no
    performance, form or user row carries the day of the respective
    sub-query, the summary reads 0 performance events with the average of
    no values, 0 forms and 0 unique sessions. *)
Theorem dashboard_without_rows_today (wall : N) (e1 e2 e3 : env) s :
  io_ok e1 = true → io_ok e2 = true → io_ok e3 = true →
  Forall (λ r, date_of (timestamp r) ≠ date_of (now e1)) (rows (db_performance s)) →
  Forall (λ r, date_of (timestamp r) ≠ date_of (now e2)) (rows (db_forms s)) →
  Forall (λ r, date_of (timestamp r) ≠ date_of (now e3)) (rows (db_users s)) →
  get_dashboard wall e1 e2 e3 s =
    Response 200 (DashboardBody wall
      (Stats (Some (PerfRow 0 (sql_avg []))) (Some 0%N) (Some 0%N))).
Proof.
  intros H1 H2 H3 Hp Hf Hu.
  assert (∀ (c : N) rs, Forall (λ r, date_of (timestamp r) ≠ date_of c) rs →
            today c rs = []) as Hnone.
  { intros c rs Hrs. unfold today. induction Hrs as [|x l Hx _ IH]; [done|].
    by rewrite filter_cons, decide_False. }
  unfold get_dashboard, db_query. rewrite H1, H2, H3. simpl.
  unfold select_performance_stats, select_form_total, select_unique_sessions.
  by rewrite (Hnone _ _ Hp), (Hnone _ _ Hf), (Hnone _ _ Hu).
Qed.

(** X15. The endpoint does not recognise a repeated event: the same
    accepted request served twice stores two rows with the same data
    columns, under consecutive keys, each stamped with the clock of its
    own insert. *)
Theorem resubmission_stores_again (e1 e2 : env) req s t data :
  has_valid_key req → carries req (JStr (type_label t)) data → nullish data = false →
  io_ok e1 = true → io_ok e2 = true → (last_rowid (tbl t s) + 1 < max_rowid)%Z →
  ∃ r1 r2,
    rows (tbl t (submit_all [(e1, req); (e2, req)] s)) = rows (tbl t s) ++ [r1; r2] ∧
    cells r1 = cells r2 ∧ id r2 = (id r1 + 1)%Z ∧
    timestamp r1 = now e1 ∧ timestamp r2 = now e2.
Proof.
  intros Hk Hc Hd Hio1 Hio2 Hseq.
  destruct (read_fields_normal data (payload_fields t) Hd) as [params Hps].
  unfold submit_all. simpl.
  rewrite (submit_accept e1 req s t data params), insert_row_ok by (done || lia). simpl.
  rewrite (submit_accept e2 req _ t data params), insert_row_ok;
    try done; rewrite ?tbl_set_tbl_eq; simpl; [|lia].
  rewrite tbl_set_tbl_eq. simpl. rewrite <- app_assoc. simpl.
  eexists _, _. split; [done|]. by repeat split.
Qed.

End Extras.

Section ScriptExtras.
Context `{SqlDriver} `{!JsRuntime}.

Implicit Types (b : browser) (cfg : config) (req : request) (ev : page_event).
Implicit Types (s : db) (e : env).

(** X10. The payloads of the tracking snippet fit the schema of the
    endpoint: every request it sends is of type user, performance or form
    (never seo) with an object as data, every property of that object is
    one the [INSERT] of its type reads (nothing the snippet sends is
    dropped), the properties fcp, lcp, cls, fid and timeOnPage are never
    sent, and the device type it reports is mobile, tablet or desktop. *)
Theorem snippet_payloads_fit_schema b ev url req :
  (url, req) ∈ snippet b ev →
  ∃ t props,
    t ≠ seo_metrics ∧
    carries req (JStr (type_label t)) (JObj props) ∧
    (∀ k, is_Some (props !! k) → k ∈ payload_fields t) ∧
    (∀ k, k ∈ ["fcp"; "lcp"; "cls"; "fid"; "timeOnPage"] → props !! k = None) ∧
    props !! "deviceType" = Some (JStr (getDeviceType b)) ∧
    getDeviceType b ∈ ["mobile"; "tablet"; "desktop"].
Proof.
  intros Hin. destruct (snippet_inv b ev url req Hin) as (t & props & Hsn & Hcase).
  rewrite Hsn in Hin. apply sendTracking_inv in Hin as (key & _ & _ & _ & _ & -> & _).
  exists t, props. split; [by destruct Hcase as [[-> _]|[[-> _]|[-> _]]]|].
  split; [apply sent_body_carries|].
  assert (getDeviceType b ∈ ["mobile"; "tablet"; "desktop"]) as Hdev.
  { unfold getDeviceType. repeat case_decide; set_solver. }
  assert (∀ k, k ∈ ["fcp"; "lcp"; "cls"; "fid"; "timeOnPage"] →
               k ≠ "sessionId" ∧ k ≠ "pageUrl" ∧ k ≠ "referrer" ∧ k ≠ "deviceType" ∧
               k ≠ "screenResolution" ∧ k ≠ "userAgent" ∧ k ≠ "loadTime" ∧
               k ≠ "domReady" ∧ k ≠ "ttfb" ∧ k ≠ "formType" ∧ k ≠ "conversionSource")
    as Hother.
  { intros k Hk. repeat (apply elem_of_cons in Hk as [->|Hk]; [by repeat split|]).
    by apply elem_of_nil in Hk. }
  destruct Hcase as [[-> ->]|[[-> [perfData ->]]|[-> [form ->]]]];
    (split; [|split; [|split; [reflexivity|exact Hdev]]]).
  - intros k [v Hv]. unfold pageData in Hv.
    repeat (apply lookup_insert_Some in Hv as [[<- _]|[_ Hv]]; [set_solver|]).
    apply lookup_singleton_Some in Hv as [<- _]. set_solver.
  - intros k Hk. destruct (Hother k Hk) as (?&?&?&?&?&?&?&?&?&?&?).
    unfold pageData. by rewrite !lookup_insert_ne, lookup_singleton_ne.
  - intros k [v Hv]. unfold perfPayload in Hv.
    repeat (apply lookup_insert_Some in Hv as [[<- _]|[_ Hv]]; [set_solver|]).
    apply lookup_singleton_Some in Hv as [<- _]. set_solver.
  - intros k Hk. destruct (Hother k Hk) as (?&?&?&?&?&?&?&?&?&?&?).
    unfold perfPayload. by rewrite !lookup_insert_ne, lookup_singleton_ne.
  - intros k [v Hv]. unfold formData in Hv.
    repeat (apply lookup_insert_Some in Hv as [[<- _]|[_ Hv]]; [set_solver|]).
    apply lookup_singleton_Some in Hv as [<- _]. set_solver.
  - intros k Hk. destruct (Hother k Hk) as (?&?&?&?&?&?&?&?&?&?&?).
    unfold formData. by rewrite !lookup_insert_ne, lookup_singleton_ne.
Qed.

(** X11. The snippet sends at most one request per event, and none
    unless both the key and the URL of its configuration are set; a
    request it sends is posted to the configured URL under the configured
    key, and when that key is one of the allowlist the tracking endpoint
    answers it with the accepting reply.  Without a configuration of the
    page the key is the default one, and the request is accepted. *)
Theorem snippet_request_answered_by_key b ev url req :
  (url, req) ∈ snippet b ev →
  ∃ k,
    apiKey (DVL_CONFIG b) = Some k ∧ k ≠ "" ∧
    apiUrl (DVL_CONFIG b) = Some url ∧ url ≠ "" ∧
    snippet b ev = [(url, req)] ∧ api_key req = Some k ∧
    (k ∈ validKeys → reply (post_track req) = Some ack) ∧
    (window_config b = None → reply (post_track req) = Some ack).
Proof.
  intros Hin. destruct (snippet_inv b ev url req Hin) as (t & props & Hsn & _).
  rewrite Hsn in Hin |- *.
  apply sendTracking_inv in Hin as (k & Hk & Hk' & Hu & Hu' & -> & Hsend).
  assert (k ∈ validKeys →
          reply (post_track (Request (Some k)
            (JObj {[ "type" := JStr (type_label t); "data" := JObj props ]}))) = Some ack)
    as Hreply.
  { intros Hvalid.
    destruct (read_fields_normal (JObj props) (payload_fields t) eq_refl) as [params Hps].
    rewrite (post_track_accept _ t (JObj props) params); [done| |apply sent_body_carries|done].
    by exists k. }
  exists k. do 6 (split; [done|]). split; [exact Hreply|].
  intros Hnone. apply Hreply. unfold DVL_CONFIG in Hk. rewrite Hnone in Hk.
  injection Hk as <-. by constructor.
Qed.

(** X12. The session identifier of the snippet is never empty and is kept
    for the browser session: at a later page load that finds the session
    storage as an earlier load left it, the identifier and the storage
    are the same again. *)
Theorem session_id_kept b b' :
  next_load b b' →
  (session_start b).1 ≠ "" ∧
  (session_start b).2 = Some (session_start b).1 ∧
  session_start b' = session_start b.
Proof.
  unfold next_load, session_start. intros Hnext.
  destruct (falsy (stored_session b)) eqn:Hf; simpl in *.
  - rewrite Hnext. simpl. by repeat split.
  - apply falsy_false in Hf as (sid & Hsid & Hne). rewrite Hsid in *. simpl.
    rewrite Hnext. simpl. by rewrite bool_decide_eq_false_2.
Qed.

(** X13. The page views of one browser session count as one session: any
    number of tracked page-view requests of the snippet that carry the
    same session identifier move the unique sessions of a day by 0 or 1,
    whatever else they differ in and whether or not every insert
    succeeds. *)
Theorem browser_session_counts_once (jobs : list (env * request)) (sid : string)
    (clock : N) s :
  Forall (λ j, ∃ b url, (session_start b).1 = sid ∧ (url, j.2) ∈ on_snippet_load b) jobs →
  (select_unique_sessions clock s ≤ select_unique_sessions clock (submit_all jobs s)
     ≤ select_unique_sessions clock s + 1)%N.
Proof.
  intros Hjobs. apply (unique_sessions_one_session jobs (JStr sid)).
  eapply Forall_impl; [exact Hjobs|]. intros [e req] (b & url & <- & Hin). simpl in *.
  unfold on_snippet_load in Hin. destruct (trackPageViews (DVL_CONFIG b)).
  - apply sendTracking_inv in Hin as (k & _ & _ & _ & _ & -> & _).
    exists (JObj (pageData b)). split; [apply sent_body_carries|reflexivity].
  - by apply elem_of_nil in Hin.
Qed.

(** X14. The dashboard page shows a summary whole or not at all: loading
    it from the dashboard route writes the four numbers of the summary,
    "Online" and the time of the update when the three sub-queries
    succeed; when one of them fails, it sets the status line to
    "Connection Error" and leaves the four numbers and the time of the
    last update as they were. *)
Theorem dashboard_page_whole_or_stale (wall : N) (e1 e2 e3 : env) s
    (time_text : string) (p : page) :
  loadData time_text (Fetched (get_dashboard wall e1 e2 e3 s)) p =
    if io_ok e1 && io_ok e2 && io_ok e3 then
      Page (pretty (total (select_performance_stats (now e1) s)))
           (pretty (select_form_total (now e2) s))
           (pretty (select_unique_sessions (now e3) s))
           (render_avg (avg_load_time (select_performance_stats (now e1) s)))
           Online ("Last updated: " +:+ time_text)
    else
      Page (perfCount p) (formCount p) (userCount p) (avgLoad p)
           ConnectionError (lastUpdate p).
Proof.
  unfold get_dashboard, db_query.
  by destruct (io_ok e1), (io_ok e2), (io_ok e3).
Qed.

End ScriptExtras.

(** ** The properties on concrete requests *)

Section Examples.
#[local] Existing Instance sample_driver.
Import Sample.

Lemma main_key_valid (b : jsval Z) : has_valid_key (Request (Some "dvl-media-main") b).
Proof. exists "dvl-media-main". split; [reflexivity|]. by constructor. Defined.

Lemma dev_key_valid (b : jsval Z) : has_valid_key (Request (Some "dvl-media-dev") b).
Proof. exists "dvl-media-dev". split; [reflexivity|]. by do 2 constructor. Defined.

Lemma event_carries (k : option string) (ty : string) (data : jsval Z) :
  carries (Request k (event ty data)) (JStr ty) data.
Proof. split; reflexivity. Defined.

(** C1, on a request with a key that is not on the list. *)
Lemma submit_unauthorized_witness :
  (∀ k, api_key wrong_key_request = Some k → k ∉ validKeys) ∧
  post_track wrong_key_request =
    [Send (Response 401 (ErrorBody "Invalid or missing API key"))] ∧
  submit (Env 1000 true) wrong_key_request empty_db =
    (Some (Response 401 (ErrorBody "Invalid or missing API key")), empty_db, []).
Proof.
  assert (∀ k, api_key wrong_key_request = Some k → k ∉ validKeys) as Hk.
  { intros k [= <-]. apply (bool_decide_eq_false_1 _). reflexivity. }
  split; [exact Hk|]. exact (submit_unauthorized (Env 1000 true) wrong_key_request empty_db Hk).
Defined.

(** C2: the store fails the insert of a well-formed form event sent with a
    valid key; the reply is the accepting one all the same, the row is
    lost, and the error goes to an event nobody listens to. *)
Theorem track_write_failure_acknowledged :
  submit (Env 1000 false) form_request empty_db = (Some ack, empty_db, [SQLITE_ERROR]) ∧
  post_track form_request = [DbRun form_submissions (JStr <$> ["contact"; "/contact"; "direct"; "mobile"; "organic"]); Send ack].
Proof. split; reflexivity. Qed.

(** C3, on the event type "bogus". *)
Lemma submit_unknown_type_witness :
  has_valid_key bogus_request ∧
  carries bogus_request (JStr "bogus") (JObj contact_form) ∧
  (∀ t, (JStr "bogus" : jsval Z) ≠ JStr (type_label t)) ∧
  ∃ s',
    submit (Env 1000 true) bogus_request one_form_db =
      (Some (Response 400 (ErrorBody "Invalid tracking type")), s', []) ∧
    s' = one_form_db ∧ ∀ t, row_count t s' = row_count t one_form_db.
Proof.
  assert (∀ t, (JStr "bogus" : jsval Z) ≠ JStr (type_label t)) as Hty
    by (intros []; discriminate).
  split; [apply dev_key_valid|]. split; [apply event_carries|]. split; [exact Hty|].
  exact (submit_unknown_type (Env 1000 true) bogus_request one_form_db _ _
           (dev_key_valid _) (event_carries _ _ _) Hty).
Defined.

(** C4 as stated fails: a form event tracked within the same second as an
    earlier one is acknowledged and stored, and the listing that follows
    still starts with the earlier row. *)
Lemma new_row_listed_second :
  has_valid_key form_request ∧
  submit (Env 1000 true) form_request one_form_db = (Some ack, two_form_db, []) ∧
  get_list form_submissions (Env 1001 true) two_form_db =
    Response 200 (RowsBody [Row 1 contact_cells 1000; Row 2 contact_cells 1000]) ∧
  rows (db_forms two_form_db) = rows (db_forms one_form_db) ++ [Row 2 contact_cells 1000] ∧
  Row 1 contact_cells 1000 ≠ Row 2 contact_cells 1000.
Proof.
  split; [apply main_key_valid|]. split; [reflexivity|]. split; [reflexivity|].
  split; [reflexivity|discriminate].
Qed.

(** The same happens, whatever the order of ties, when the engine's clock
    has been set back between the two inserts. *)
Example new_row_listed_second_clock_set_back :
  let s1 := Db empty_table empty_table (Table [Row 1 contact_cells 2000] 1) empty_table in
  let s2 := Db empty_table empty_table
               (Table [Row 1 contact_cells 2000; Row 2 contact_cells 1000] 2) empty_table in
  submit (Env 1000 true) form_request s1 = (Some ack, s2, []) ∧
  get_list form_submissions (Env 1001 true) s2 =
    Response 200 (RowsBody [Row 1 contact_cells 2000; Row 2 contact_cells 1000]).
Proof. split; reflexivity. Qed.

(** C4 as amended, on a form event tracked 1000 seconds after the
    earlier one: it is listed first. *)
Lemma submit_then_list_witness :
  has_valid_key form_request ∧
  carries form_request (JStr (type_label form_submissions)) (JObj contact_form) ∧
  nullish (JObj contact_form) = false ∧
  io_ok (Env 2000 true) = true ∧
  (last_rowid (tbl form_submissions one_form_db) < max_rowid)%Z ∧
  io_ok (Env 2001 true) = true ∧
  Forall (λ x, (timestamp x < now (Env 2000 true))%N) (rows (tbl form_submissions one_form_db)) ∧
  ∃ r s' rs,
    submit (Env 2000 true) form_request one_form_db = (Some ack, s', []) ∧
    rows (tbl form_submissions s') = rows (tbl form_submissions one_form_db) ++ [r] ∧
    timestamp r = 2000%N ∧
    row_count form_submissions s' = 2 ∧
    (∀ t', t' ≠ form_submissions → tbl t' s' = tbl t' one_form_db) ∧
    get_list form_submissions (Env 2001 true) s' = Response 200 (RowsBody rs) ∧
    StronglySorted newer_first rs ∧
    head rs = Some r.
Proof.
  assert (Forall (λ x : row, (timestamp x < now (Env 2000 true))%N)
            (rows (tbl form_submissions one_form_db))) as Hnew
    by (repeat constructor).
  split; [apply main_key_valid|]. split; [apply event_carries|].
  do 4 (split; [reflexivity|]). split; [exact Hnew|].
  destruct (submit_then_list (Env 2000 true) (Env 2001 true) form_request one_form_db
              form_submissions (JObj contact_form) (main_key_valid _)
              (event_carries _ _ _) eq_refl eq_refl eq_refl eq_refl)
    as (r & s' & rs & Hs & Hr & Ht & Hc & Hf & Hl & Hsorted & Hhead).
  exists r, s', rs. rewrite Hc. auto 10.
Defined.

(** C5, on a store with three page views of the same day, two of them of
    one session. *)
Lemma unique_sessions_counts_distinct_witness :
  let s := submit_all [(Env 1000 true, page_view "a"); (Env 1001 true, page_view "a");
                       (Env 1002 true, page_view "b")] empty_db in
  let e := Env 1003 true in
  io_ok e = true ∧
  get_dashboard 1003000 e e e s =
    Response 200 (DashboardBody 1003000 (Stats (Some (PerfRow 0 VNull)) (Some 0%N) (Some 2%N))) ∧
  ∃ p f u,
    get_dashboard 1003000 e e e s =
      Response 200 (DashboardBody 1003000 (Stats (Some p) (Some f) (Some u))) ∧
    (∃ l, NoDup l ∧ (∀ v, v ∈ l ↔ session_of_today (now e) s v) ∧
          u = N.of_nat (length l)) ∧
    ∀ (jobs : list (env * request)) sid,
      Forall (λ j, ∃ data, carries j.2 (JStr "user") data ∧
                           get_prop data "sessionId" = Normal sid) jobs →
      ∃ p' f' u',
        get_dashboard 1003000 e e e (submit_all jobs s) =
          Response 200 (DashboardBody 1003000 (Stats (Some p') (Some f') (Some u'))) ∧
        (u ≤ u' ≤ u + 1)%N.
Proof.
  intros s e. split; [reflexivity|]. split; [reflexivity|].
  exact (unique_sessions_counts_distinct 1003000 e e e s eq_refl eq_refl eq_refl).
Defined.

(** Five more page views of session "a" leave the count of the day at 2;
    five of a new session "c" make it 3. *)
Example repeated_session_counted_once :
  let s := submit_all [(Env 1000 true, page_view "a"); (Env 1001 true, page_view "a");
                       (Env 1002 true, page_view "b")] empty_db in
  select_unique_sessions 1003 (submit_all (replicate 5 (Env 1003 true, page_view "a")) s) = 2%N ∧
  select_unique_sessions 1003 (submit_all (replicate 5 (Env 1003 true, page_view "c")) s) = 3%N ∧
  select_unique_sessions 90000 s = 0%N.
Proof. by vm_compute. Qed.

(** Listings of a table of 150 rows stop at 100, newest first. *)
Example listing_is_capped :
  let rs := (λ i, Row (Z.of_nat i) [] (N.of_nat i)) <$> seq 1 150 in
  let s := Db empty_table empty_table (Table rs 150) empty_table in
  let page := select_recent form_submissions s in
  serve working_world (Listing form_submissions) (Request None JUndefined) s =
    (Some (Response 200 (RowsBody page)), s) ∧
  length page = 100 ∧ timestamp <$> head page = Some 150%N ∧
  timestamp <$> last page = Some 51%N.
Proof. intros rs s page. split; [reflexivity|]. vm_compute. auto. Qed.

(** The dashboard with its second sub-query failing. *)
Example dashboard_second_query_fails :
  get_dashboard 1003000 (Env 1003 true) (Env 1003 false) (Env 1003 true) one_form_db =
    Response 500 (ErrorBody "Database error").
Proof. reflexivity. Qed.

(** The health route, without a key and on a store that fails. *)
Example health_on_failing_store :
  serve failing_world Health (Request None JUndefined) one_form_db =
    (Some (Response 200 (HealthBody "healthy" "DVL Analytics API" "1.0.0"
                                    1700000000000 "connected")), one_form_db) ∧
  serve failing_world (Listing form_submissions) (Request None JUndefined) one_form_db =
    (Some (Response 500 (ErrorBody "Database error")), one_form_db).
Proof. split; reflexivity. Qed.

(** C8 as stated fails: a form event without [data], sent with a valid
    key, is answered 500 "Failed to track data", not 400. *)
Lemma missing_data_answered_500 :
  has_valid_key form_request_no_data ∧
  carries form_request_no_data (JStr "form") JUndefined ∧
  submit (Env 1000 true) form_request_no_data empty_db =
    (Some (Response 500 (ErrorBody "Failed to track data")), empty_db, []) ∧
  (500 ≠ 400)%N.
Proof.
  split; [apply main_key_valid|]. split; [split; reflexivity|].
  split; [reflexivity|discriminate].
Qed.

(** C8 as amended, on a form event whose [data] is null. *)
Lemma submit_unusable_payload_witness :
  let req := Request (Some "dvl-media-main") (event "form" JNull) in
  has_valid_key req ∧
  carries req (JStr (type_label form_submissions)) JNull ∧
  submit (Env 1000 true) req one_form_db =
    (Some (Response 500 (ErrorBody "Failed to track data")), one_form_db, []).
Proof.
  intros req. split; [apply main_key_valid|]. split; [apply event_carries|].
  exact (submit_unusable_payload (Env 1000 true) req one_form_db form_submissions JNull
           (main_key_valid _) (event_carries _ _ _)).
Defined.

(** C9, on the contact form sent with and without a client-side
    [timestamp]. *)
Lemma stored_row_ignores_client_keys_witness :
  let stamped := JObj (<["timestamp" := JStr "1999-12-31 23:59:59"]> contact_form) in
  has_valid_key form_request ∧ has_valid_key form_request_stamped ∧
  carries form_request (JStr (type_label form_submissions)) (JObj contact_form) ∧
  carries form_request_stamped (JStr (type_label form_submissions)) stamped ∧
  nullish (JObj contact_form) = false ∧
  (∀ k, k ∈ payload_fields form_submissions →
        get_prop (JObj contact_form) k = get_prop stamped k) ∧
  io_ok (Env 2000 true) = true ∧
  (last_rowid (tbl form_submissions one_form_db) < max_rowid)%Z ∧
  ∃ r s',
    submit (Env 2000 true) form_request one_form_db = (Some ack, s', []) ∧
    submit (Env 2000 true) form_request_stamped one_form_db = (Some ack, s', []) ∧
    rows (tbl form_submissions s') = rows (tbl form_submissions one_form_db) ++ [r] ∧
    timestamp r = now (Env 2000 true).
Proof.
  intros stamped.
  assert (Forall (λ k, get_prop (JObj contact_form) k = get_prop stamped k)
            (payload_fields form_submissions)) as Hall by (repeat constructor).
  assert (∀ k, k ∈ payload_fields form_submissions →
               get_prop (JObj contact_form) k = get_prop stamped k) as Hagree
    by exact (proj1 (Forall_forall _ _) Hall).
  split; [apply main_key_valid|]. split; [apply main_key_valid|].
  split; [apply event_carries|]. split; [apply event_carries|].
  split; [reflexivity|]. split; [exact Hagree|]. split; [reflexivity|]. split; [reflexivity|].
  exact (stored_row_ignores_client_keys (Env 2000 true) form_request form_request_stamped
           one_form_db form_submissions (JObj contact_form) stamped
           (main_key_valid _) (main_key_valid _) (event_carries _ _ _) (event_carries _ _ _)
           eq_refl Hagree eq_refl eq_refl).
Defined.

Example stamped_form_stored_alike :
  submit (Env 2000 true) form_request_stamped one_form_db = (Some ack, later_form_db, []) ∧
  submit (Env 2000 true) form_request one_form_db = (Some ack, later_form_db, []).
Proof. split; reflexivity. Qed.

End Examples.

(** ** The further properties on concrete requests, runs and browsers *)

Section MoreExamples.
#[local] Existing Instance sample_driver.
#[local] Existing Instance sample_runtime.
Import Sample SampleScripts.

Lemma one_form_db_keys_ok : db_keys_ok one_form_db.
Proof.
  intros []; unfold keys_ok; simpl; (split; [|split]);
    repeat constructor; simpl; try lia; discriminate.
Defined.

(** X1, on a form event without [data]. *)
Lemma track_reply_decision_witness :
  let req := form_request_no_data in
  carries req (JStr "form") JUndefined ∧
  (reply (post_track req) = Some unauthorized ↔ ¬ has_valid_key req) ∧
  (reply (post_track req) = Some invalid_type ↔
     has_valid_key req ∧ ∀ t, (JStr "form" : jsval Z) ≠ JStr (type_label t)) ∧
  (reply (post_track req) = Some track_failed ↔
     has_valid_key req ∧ (∃ t, (JStr "form" : jsval Z) = JStr (type_label t)) ∧
     nullish (JUndefined : jsval Z) = true) ∧
  (reply (post_track req) = Some ack ↔
     has_valid_key req ∧ (∃ t, (JStr "form" : jsval Z) = JStr (type_label t)) ∧
     nullish (JUndefined : jsval Z) = false).
Proof.
  intros req.
  assert (carries req (JStr "form") JUndefined) as Hc by (split; reflexivity).
  split; [exact Hc|]. exact (track_reply_decision req (JStr "form") JUndefined Hc).
Defined.

(** The same run twice: the store grows by the one form that was tracked
    while the store worked. *)
Example run_append_only_sample :
  serve_all sample_run one_form_db =
    Db empty_table empty_table
       (Table [Row 1 contact_cells 1000; Row 2 contact_cells 1700000000] 2) empty_table ∧
  track_count sample_run = 3.
Proof. split; reflexivity. Qed.

(** X4, on the sample run from a store with one form. *)
Lemma run_keeps_keys_witness :
  db_keys_ok one_form_db ∧
  db_keys_ok (serve_all sample_run one_form_db) ∧
  ∀ t, NoDup (id <$> rows (tbl t (serve_all sample_run one_form_db))).
Proof.
  split; [exact one_form_db_keys_ok|].
  exact (run_keeps_keys sample_run one_form_db one_form_db_keys_ok).
Defined.

(** X5, on the contact form of the specification's example. *)
Lemma tracked_fields_land_in_columns_witness :
  let e := Env 2000 true in
  has_valid_key form_request ∧
  carries form_request (JStr (type_label form_submissions)) (JObj contact_form) ∧
  nullish (JObj contact_form) = false ∧
  io_ok e = true ∧
  (last_rowid (tbl form_submissions one_form_db) < max_rowid)%Z ∧
  ∃ r,
    rows (tbl form_submissions (submit e form_request one_form_db).1.2) =
      rows (tbl form_submissions one_form_db) ++ [r] ∧
    id r = (last_rowid (tbl form_submissions one_form_db) + 1)%Z ∧
    length (cells r) = length (columns form_submissions) ∧
    ∀ i col aff k,
      columns form_submissions !! i = Some (col, aff) →
      payload_fields form_submissions !! i = Some k →
      ∃ v, get_prop (JObj contact_form) k = Normal v ∧
           cell form_submissions col r = bind_column aff v.
Proof.
  intros e. split; [apply main_key_valid|]. split; [apply event_carries|].
  do 3 (split; [reflexivity|]).
  exact (tracked_fields_land_in_columns e form_request one_form_db form_submissions
           (JObj contact_form) (main_key_valid _) (event_carries _ _ _)
           eq_refl eq_refl eq_refl).
Defined.

Example contact_form_columns :
  let r := Row 2 contact_cells 2000 in
  rows (db_forms (submit (Env 2000 true) form_request one_form_db).1.2) =
    [Row 1 contact_cells 1000; r] ∧
  cell form_submissions "form_type" r = VText "contact" ∧
  cell form_submissions "device_type" r = VText "mobile" ∧
  cell form_submissions "conversion_source" r = VText "organic" ∧
  cell user_analytics "time_on_page"
    (Row 1 (zip_with sample_bind (columns user_analytics).*2
              [JStr "a"; JStr "/"; JUndefined; JUndefined; JUndefined; JUndefined; JUndefined])
         1000) = VNull.
Proof. repeat split; reflexivity. Qed.

(** X6, on a contact form tracked at second 2000 and the totals read
    later on the same day. *)
Lemma dashboard_totals_after_tracking_witness :
  let e := Env 2000 true in
  let s' := (submit e form_request one_form_db).1.2 in
  has_valid_key form_request ∧
  carries form_request (JStr (type_label form_submissions)) (JObj contact_form) ∧
  nullish (JObj contact_form) = false ∧
  io_ok e = true ∧
  (last_rowid (tbl form_submissions one_form_db) < max_rowid)%Z ∧
  select_form_total 3000 s' = (select_form_total 3000 one_form_db + 1)%N ∧
  total (select_performance_stats 3000 s') =
    (total (select_performance_stats 3000 one_form_db) + 0)%N.
Proof.
  intros e s'. split; [apply main_key_valid|]. split; [apply event_carries|].
  do 3 (split; [reflexivity|]).
  exact (dashboard_totals_after_tracking e form_request one_form_db form_submissions
           (JObj contact_form) 3000 (main_key_valid _) (event_carries _ _ _)
           eq_refl eq_refl eq_refl).
Defined.

(** The same form does not show in the total of the next day. *)
Example form_total_next_day :
  let s' := (submit (Env 2000 true) form_request one_form_db).1.2 in
  select_form_total 3000 s' = 2%N ∧ select_form_total 90000 s' = 0%N.
Proof. split; reflexivity. Qed.

(** X8, on two forms tracked 1000 seconds apart. *)
Lemma listing_of_chronological_table_witness :
  chronological (rows (tbl form_submissions later_form_db)) ∧
  get_list form_submissions (Env 3000 true) later_form_db =
    Response 200 (RowsBody [Row 2 contact_cells 2000; Row 1 contact_cells 1000]).
Proof.
  assert (chronological (rows (tbl form_submissions later_form_db))) as Hc
    by (unfold chronological; repeat constructor).
  split; [exact Hc|].
  exact (listing_of_chronological_table form_submissions (Env 3000 true) later_form_db Hc).
Defined.

(** X9, on the dashboard read one day after the only form was tracked. *)
Lemma dashboard_without_rows_today_witness :
  let e := Env 90000 true in
  io_ok e = true ∧
  Forall (λ r, date_of (timestamp r) ≠ date_of (now e)) (rows (db_performance one_form_db)) ∧
  Forall (λ r, date_of (timestamp r) ≠ date_of (now e)) (rows (db_forms one_form_db)) ∧
  Forall (λ r, date_of (timestamp r) ≠ date_of (now e)) (rows (db_users one_form_db)) ∧
  get_dashboard 90000000 e e e one_form_db =
    Response 200 (DashboardBody 90000000
      (Stats (Some (PerfRow 0 (sql_avg []))) (Some 0%N) (Some 0%N))).
Proof.
  intros e.
  assert (Forall (λ r : row, date_of (timestamp r) ≠ date_of (now e))
            (rows (db_forms one_form_db))) as Hf
    by (repeat constructor; discriminate).
  split; [reflexivity|]. split; [constructor|]. split; [exact Hf|]. split; [constructor|].
  exact (dashboard_without_rows_today 90000000 e e e one_form_db
           eq_refl eq_refl eq_refl (Forall_nil_2 _) Hf (Forall_nil_2 _)).
Defined.

Lemma phone_sends_page_view :
  (default_url, sent "dvl-media-main" "user" (pageData phone)) ∈ snippet phone SnippetLoad.
Proof. apply list_elem_of_here. Defined.

(** X10, on the page view of a phone. *)
Lemma snippet_payloads_fit_schema_witness :
  let req := sent "dvl-media-main" "user" (pageData phone) in
  (default_url, req) ∈ snippet phone SnippetLoad ∧
  ∃ t props,
    t ≠ seo_metrics ∧
    carries req (JStr (type_label t)) (JObj props) ∧
    (∀ k, is_Some (props !! k) → k ∈ payload_fields t) ∧
    (∀ k, k ∈ ["fcp"; "lcp"; "cls"; "fid"; "timeOnPage"] → props !! k = None) ∧
    props !! "deviceType" = Some (JStr (getDeviceType phone)) ∧
    getDeviceType phone ∈ ["mobile"; "tablet"; "desktop"].
Proof.
  intros req. split; [exact phone_sends_page_view|].
  exact (snippet_payloads_fit_schema phone SnippetLoad default_url req phone_sends_page_view).
Defined.

(** X11, on the page view of a phone without a configuration of the
    page; and a form of a site whose own key is not on the allowlist. *)
Lemma snippet_request_answered_by_key_witness :
  let req := sent "dvl-media-main" "user" (pageData phone) in
  (default_url, req) ∈ snippet phone SnippetLoad ∧
  reply (post_track req) = Some ack ∧
  ∃ k,
    apiKey (DVL_CONFIG phone) = Some k ∧ k ≠ "" ∧
    apiUrl (DVL_CONFIG phone) = Some default_url ∧ default_url ≠ "" ∧
    snippet phone SnippetLoad = [(default_url, req)] ∧ api_key req = Some k ∧
    (k ∈ validKeys → reply (post_track req) = Some ack) ∧
    (window_config phone = None → reply (post_track req) = Some ack).
Proof.
  intros req. split; [exact phone_sends_page_view|]. split; [reflexivity|].
  exact (snippet_request_answered_by_key phone SnippetLoad default_url req
           phone_sends_page_view).
Defined.

Example own_key_site_turned_down :
  let form := Element "FORM" "" "signup" in
  snippet own_key_site (FormSubmit form) =
    [(default_url, sent "my-site" "form" (formData own_key_site form))] ∧
  reply (post_track (sent "my-site" "form" (formData own_key_site form))) =
    Some unauthorized ∧
  snippet own_key_site (FormSubmit (Element "DIV" "" "signup")) = [].
Proof. repeat split; reflexivity. Qed.

(** The page view of the phone, sent with the default configuration, is
    accepted and stored; what the snippet does not send is stored as
    [NULL]. *)
Example phone_page_view_stored :
  submit (Env 1700000000 true) (sent "dvl-media-main" "user" (pageData phone)) empty_db =
    (Some ack,
     Db empty_table empty_table empty_table
        (Table [Row 1 [VText "dvl_1700000000000_k3j9x0q1z"; VText "https://example.org/";
                       VText "direct"; VText "mobile"; VText "390x844";
                       VText "Mozilla/5.0"; VNull] 1700000000] 1),
     []).
Proof. by vm_compute. Qed.

(** X12, on the phone and its next page load. *)
Lemma session_id_kept_witness :
  next_load phone phone_again ∧
  (session_start phone).1 ≠ "" ∧
  (session_start phone).2 = Some (session_start phone).1 ∧
  session_start phone_again = session_start phone.
Proof.
  assert (next_load phone phone_again) as Hn by (vm_compute; reflexivity).
  split; [exact Hn|]. exact (session_id_kept phone phone_again Hn).
Defined.

(** X13, on two page views of the phone's session, the second of which
    the store fails to insert. *)
Lemma browser_session_counts_once_witness :
  let sid := "dvl_1700000000000_k3j9x0q1z" in
  let jobs := [(Env 1700000000 true, sent "dvl-media-main" "user" (pageData phone));
               (Env 1700000060 false, sent "dvl-media-main" "user" (pageData phone_again))] in
  Forall (λ j, ∃ b url, (session_start b).1 = sid ∧ (url, j.2) ∈ on_snippet_load b) jobs ∧
  (select_unique_sessions 1700000100 empty_db
     ≤ select_unique_sessions 1700000100 (submit_all jobs empty_db)
     ≤ select_unique_sessions 1700000100 empty_db + 1)%N.
Proof.
  intros sid jobs.
  assert (Forall (λ j : env * request,
            ∃ b url, (session_start b).1 = sid ∧ (url, j.2) ∈ on_snippet_load b) jobs) as Hjobs.
  { repeat constructor.
    - exists phone, default_url. split; [vm_compute; reflexivity|apply list_elem_of_here].
    - exists phone_again, default_url. split; [vm_compute; reflexivity|apply list_elem_of_here]. }
  split; [exact Hjobs|].
  exact (browser_session_counts_once jobs sid 1700000100 empty_db Hjobs).
Defined.

(** The dashboard page after the sample run, and with the second
    sub-query failing. *)
Example dashboard_page_sample :
  let s := serve_all sample_run empty_db in
  let ok := Env 1700000000 true in
  let ko := Env 1700000000 false in
  loadData "10:00" (Fetched (get_dashboard 5 ok ok ok s)) initial_page =
    Page "0" "1" "0" "No data" Online "Last updated: 10:00" ∧
  loadData "10:00" (Fetched (get_dashboard 5 ok ko ok s)) initial_page =
    Page "Loading..." "Loading..." "Loading..." "Loading..." ConnectionError
         "Last updated: Never".
Proof. split; by vm_compute. Qed.

(** X15, on the contact form sent twice. *)
Lemma resubmission_stores_again_witness :
  let e1 := Env 2000 true in
  let e2 := Env 2001 true in
  has_valid_key form_request ∧
  carries form_request (JStr (type_label form_submissions)) (JObj contact_form) ∧
  nullish (JObj contact_form) = false ∧
  io_ok e1 = true ∧ io_ok e2 = true ∧
  (last_rowid (tbl form_submissions one_form_db) + 1 < max_rowid)%Z ∧
  ∃ r1 r2,
    rows (tbl form_submissions (submit_all [(e1, form_request); (e2, form_request)] one_form_db)) =
      rows (tbl form_submissions one_form_db) ++ [r1; r2] ∧
    cells r1 = cells r2 ∧ id r2 = (id r1 + 1)%Z ∧
    timestamp r1 = now e1 ∧ timestamp r2 = now e2.
Proof.
  intros e1 e2. split; [apply main_key_valid|]. split; [apply event_carries|].
  do 4 (split; [reflexivity|]).
  exact (resubmission_stores_again e1 e2 form_request one_form_db form_submissions
           (JObj contact_form) (main_key_valid _) (event_carries _ _ _)
           eq_refl eq_refl eq_refl eq_refl).
Defined.

End MoreExamples.
